(* ===== verification/_CoqProject ===== *)
-Q . S2P
Prelude.v
Url.v
Session.v
Gate.v
Login.v
Header.v
Flow.v
Chat.v
ChatView.v
ChatScreen.v
NavMain.v
Dashboard.v
Columns.v
DashboardView.v
