(* ===== verification/Prelude.v ===== *)
(** * A verification development for the shadcn starter dashboard

    The program is a Next.js application: a request middleware
    ([src/middleware.ts]) that gates every page behind a next-auth session
    and sends anonymous visitors to [/login] with the URL they asked for
    as [callbackUrl]; the login page ([src/app/login/page.tsx]) that reads
    that parameter and calls next-auth's [signIn]; a logout button
    ([src/components/logout-button.tsx]) in the page header
    ([src/components/app-header.tsx], which also renders the breadcrumbs);
    a sidebar menu with collapsible sections
    ([src/components/nav-main.tsx]); a chat page with a simulated
    assistant ([src/app/chat/page.tsx]); and a dashboard that reshapes a
    static fixture into chart and table rows ([src/app/dashboard/page.tsx]).

    ** Files

    - [Prelude.v] (this file): JavaScript strings as ASCII byte strings
      ([str_split], [str_join], [js_trim], [||] as [||?]), a settled
      promise [Promise] with [Resolved]/[Rejected] and its monad
      instances, JavaScript's error kinds, and the lemmas on strings,
      lists and promises the components share, with the hint databases
      [js] and [js_rw] and the tactics [str_cases], [ascii_cases] and
      [elem_cases].  [VNode] is a rendered React element tree with its
      event handler props; [vhandlers] and [vlinks] list the handlers and
      links a page offers, and [vmap] places a component's tree in a
      page whose handlers have a wider type.
    - [Url.v]: the platform's URL and URLSearchParams (not code of the
      repository, modelled from the WHATWG URL standard): the
      form-urlencoded serializer and parser ([FormUrlencoded]),
      [searchParams.get]/[set] ([SearchParams]), the URL record, its
      serialization and [new URL(path, base)] ([URL]), with the lemmas
      the gate and the login flow use (decode after encode, parse after
      serialize, get after set, parse after print).
    - [Session.v]: the [Request] the middleware receives and the
      [SessionProvider] type class of [getToken], with its laws as classes
      the gate's theorems assume; [NextAuth] is next-auth's [getToken]
      (cookie, else [Bearer] header through [decodeURIComponent], which
      accepts only percent-encoded well-formed UTF-8, then the JWT
      decryption, a parameter) and its instance.
    - [Gate.v]: [middleware] (the awaited [getToken]) and
      [middleware_decision] (the branches on [isLoginPage] and
      [isAuthenticated]), the [config.matcher] regular expression
      ([Matcher]), [run_middleware] composing them as Next.js does, and
      [Spec], the decision table of the specification.  Theorems: the
      middleware refines the table for every provider, the callback URL
      being the full request URL (C1); excluded paths bypass it (C5);
      without a secret it fails closed (C6); with next-auth's [getToken],
      a [Bearer] token that is not percent-encoded UTF-8 makes it reject,
      for every request (C7).
    - [Login.v]: [LoginPage.callbackUrl], [LoginPage.handleLogin] and
      [LogoutButton.handleLogout], handlers modelled by the effects they
      perform ([ClientEffect]): the next-auth call, then the
      [console.error] of its [catch]; [LoginPage.view] and
      [LogoutButton.view] are the elements they render.
    - [Flow.v]: a browser tab ([Browser]) whose actions ([step]) are
      visits, which follow redirects through [run_middleware] up to the
      browser's limit ([browse]), and clicks, which run the [onClick]
      the served page renders on the clicked element
      ([rendered_controls]: the login card, the header); their effects
      go through next-auth's client ([signOut] navigates only with
      [redirect: true]), its endpoints and its default redirect callback
      ([nextauth_redirect]), modelled from their documented behaviour.
      Theorems: a protected page is on screen only with a valid session,
      by induction over every action sequence (C2); the login round trip
      returns to the requested page (C3); redirects settle after one hop
      (C4); the outcomes of logout and of a rejected sign-in (C8, C9).
    - [Chat.v]: the chat page as a state machine ([ChatPage.ChatState]:
      the two React states, the clock and the pending timers;
      [chat_step] on [ChatEvent]s), and the static [ChatLayout].
      Theorems: the invariant that each message has its reply shown or
      pending within a second (C10), every message answered after a
      second of waiting (C11), when a key press sends (C12), duplicate
      React keys from [Date.now()] ids whenever a reply is pending
      (C13), and messages listed in timestamp order (C27).
    - [ChatView.v]: the chat area's element tree, its handlers taking
      DOM events.
    - [ChatScreen.v]: the whole [ChatPage] as React runs it: the mounted
      component ([Mounted]: state, [textareaRef], the effect's last
      dependencies), one [commit] per event that writes the controlled
      textarea and reruns the auto-resize effect ([autoResize]) when its
      dependency [[inputMessage]] changed, with the browser's
      [scrollHeight] as a Section variable; and the page's element tree
      ([page]: sidebar, then header and chat area, handlers in a sum).
      Theorem: after any events the textarea holds the input at the
      height of its text (C29).
    - [Dashboard.v]: the date-range state, [formattedMonthlyData] and
      [tableData] ([DashboardPage]), with date-fns' [parseISO], the
      output of [format], [addDays] and [Number] as parameters of a
      Section.  Theorems: with a range set a render never throws and
      computes the expected rows (C14); with a range unset it throws
      exactly on an unparsable date (C15); an empty category fixture
      crashes the table (C16).
    - [NavMain.v]: [expandedItems] with its initialiser and [toggleItem],
      and the rendered menu.  Theorems: a toggle flips only its section
      (C17), the open state after any clicks is a parity (C18), expanded
      titles stay distinct (C19), the current page's section starts open
      (C20); sections sharing a title share their open state and React
      key (C30).
    - [Header.v]: the breadcrumbs of [AppHeader], what they render and
      the header's element tree ([AppHeader.view]).  Theorems: keys are
      unique (C21), chevrons and links sit where they should (C22), the
      last crumb is the current page (C23), the header's only handler is
      the logout button's and its links are the breadcrumbs but the last
      (C28); the code's indexed [map] with [slice]/[join] is proved equal
      to the accumulating [crumbs_from].
    - [Columns.v]: the table columns ([Columns.columns]): TanStack's
      [getValue], its sorting by a column's named sorting function
      ([column_compare]), the cells with [Intl.NumberFormat]'s en-US
      grouping and USD currency format, and the ["text"] sorting
      function of the date column with date-fns' [yyyy-MM-dd]
      ([format_ymd]).  Theorems: money cells read back as the row's
      amount (C24); sorting by the date column is chronological for
      four-digit years (C25) and puts every year from 10000 to 19999
      before every year from 2000 to 9999 (C26).
    - [DashboardView.v]: what the dashboard page hands to its cards,
      charts and table ([page_view]), field access as the class
      [HasFields] with one instance per kind of row.

    ** Bounds and fuel

    [browse] takes the browser's redirect limit, [max_redirects] = 20
    (Chrome and Firefox stop at 20); C4 shows one redirect always
    suffices, so the limit is never what ends a visit.  Time in the chat
    is an explicit clock in milliseconds as [Z], advanced by [Tick]
    events; timers fire at their due time in order.  No other definition
    needs fuel: every recursion is structural.  C26 checks the printed
    years 2000 to 19999 by evaluation.

    ** Not modelled

    Styling and icons (class names and icon elements are kept as
    attributes and tags, not interpreted); chart drawing
    and the table's pagination and selection state (libraries); the UI
    primitives, [AppSidebar] and the chart fixture, which are imported
    but not in the repository's sources; OAuth with GitHub (an outcome
    parameter of the sign-in action); the JWT decryption (a parameter);
    Unicode beyond ASCII in strings ([toUpperCase], [trim]); amounts that
    are not integers, and the rounding [Intl.NumberFormat] applies to
    them; the browser's layout, of which the auto-resize effect reads
    [scrollHeight] (a parameter); the content of [AppSidebar], which
    the chat page model renders as an element without children; the
    link between the dashboard's [format] parameter and [format_ymd]
    (a date's calendar fields in the local time zone); next-auth
    failing on an unparsable callback URL (its redirect callback sends
    it to the origin); the date-fns version ([isWithinInterval] is
    modelled as in v3, accepting the ends in either order).  The
    remaining lines of the sources are imports and the closing of the
    components. *)

From Stdlib Require Export Ascii String ZArith Lia Sorted.
From stdpp Require Export base list strings.

(** ** Notations of the development *)

(** stdpp declares [String.append] [simpl never]; the models here compute
    with concatenations of literals, so it reduces on a constructor. *)
#[global] Arguments String.append : simpl nomatch.

Declare Scope js_scope.
Delimit Scope js_scope with js.
Open Scope js_scope.

(** ** Characters, read as the bytes of an ASCII string *)

Definition is_ascii_digit (c : ascii) : bool :=
  let n := nat_of_ascii c in (48 <=? n) && (n <=? 57).
Definition is_ascii_upper (c : ascii) : bool :=
  let n := nat_of_ascii c in (65 <=? n) && (n <=? 90).
Definition is_ascii_lower (c : ascii) : bool :=
  let n := nat_of_ascii c in (97 <=? n) && (n <=? 122).
Definition is_ascii_alnum (c : ascii) : bool :=
  is_ascii_digit c || is_ascii_upper c || is_ascii_lower c.

(** The white space [String.prototype.trim] removes, restricted to ASCII:
    TAB, LF, VT, FF, CR and SPACE. *)
Definition js_is_whitespace (c : ascii) : bool :=
  let n := nat_of_ascii c in
  (n =? 9) || (n =? 10) || (n =? 11) || (n =? 12) || (n =? 13) || (n =? 32).

(** [String.prototype.toUpperCase] on one ASCII character. *)
Definition ascii_to_upper (c : ascii) : ascii :=
  if is_ascii_lower c then ascii_of_nat (nat_of_ascii c - 32) else c.

(** ** Strings *)

Fixpoint str_forallb (p : ascii -> bool) (s : string) : bool :=
  match s with
  | EmptyString => true
  | String c s' => p c && str_forallb p s'
  end.

(** [trim] = strip the leading white space, then the trailing. *)
Fixpoint str_ltrim (s : string) : string :=
  match s with
  | EmptyString => EmptyString
  | String c s' => if js_is_whitespace c then str_ltrim s' else s
  end.

Fixpoint str_rtrim (s : string) : string :=
  match s with
  | EmptyString => EmptyString
  | String c s' =>
      let t := str_rtrim s' in
      match t with
      | EmptyString => if js_is_whitespace c then EmptyString else String c EmptyString
      | _ => String c t
      end
  end.

Definition js_trim (s : string) : string := str_rtrim (str_ltrim s).

(** [s.split(sep)] for a one-character separator: never the empty list. *)
Fixpoint str_split (sep : ascii) (s : string) : list string :=
  match s with
  | EmptyString => [EmptyString]
  | String c s' =>
      let parts := str_split sep s' in
      if Ascii.eqb c sep then EmptyString :: parts
      else match parts with
           | p :: ps => String c p :: ps
           | [] => [String c EmptyString]
           end
  end.

(** [parts.join(sep)]. *)
Definition str_join (sep : ascii) (l : list string) : string :=
  String.concat (String sep EmptyString) l.

(** Split at the first occurrence of [sep], if any. *)
Fixpoint str_split_first (sep : ascii) (s : string) : option (string * string) :=
  match s with
  | EmptyString => None
  | String c s' =>
      if Ascii.eqb c sep then Some (EmptyString, s')
      else match str_split_first sep s' with
           | Some (a, b) => Some (String c a, b)
           | None => None
           end
  end.

(** Break [s] before its first character satisfying [p]. *)
Fixpoint str_break (p : ascii -> bool) (s : string) : string * string :=
  match s with
  | EmptyString => (EmptyString, EmptyString)
  | String c s' =>
      if p c then (EmptyString, s)
      else let '(a, b) := str_break p s' in (String c a, b)
  end.

(** [s] without the prefix [pre], if it has it. *)
Fixpoint str_strip_prefix (pre s : string) : option string :=
  match pre, s with
  | EmptyString, _ => Some s
  | String c pre', String d s' => if Ascii.eqb c d then str_strip_prefix pre' s' else None
  | String _ _, EmptyString => None
  end.

(** [s.startsWith(pre)]. *)
Definition str_starts_with (pre s : string) : bool :=
  match str_strip_prefix pre s with Some _ => true | None => false end.

(** [c] is one of the characters of [cs]. *)
Fixpoint is_one_of (cs : string) (c : ascii) : bool :=
  match cs with
  | EmptyString => false
  | String d cs' => Ascii.eqb c d || is_one_of cs' c
  end.

Definition str_excludes (sep : ascii) (s : string) : bool :=
  str_forallb (fun c => negb (Ascii.eqb c sep)) s.

(** [arr.includes(x)] on an array of strings. *)
Definition js_includes (l : list string) (x : string) : bool :=
  existsb (String.eqb x) l.

(** [o || d] where [o] is a string or [null]: both [null] and [""] are
    falsy. *)
Definition js_or_default (o : option string) (d : string) : string :=
  match o with
  | Some s => if String.eqb s EmptyString then d else s
  | None => d
  end.
Notation "o ||? d" := (js_or_default o d) (at level 50) : js_scope.

(** ** Asynchronous results: a settled promise *)

Inductive JsError :=
  | TypeError (msg : string)
  | RangeError (msg : string)
  | URIError (msg : string)
  | ProviderError (msg : string).

Inductive Promise (A : Type) :=
  | Resolved (a : A)
  | Rejected (e : JsError).
Arguments Resolved {A} a.
Arguments Rejected {A} e.

#[export] Instance promise_ret : MRet Promise := fun A a => Resolved a.
#[export] Instance promise_bind : MBind Promise :=
  fun A B f p => match p with Resolved a => f a | Rejected e => Rejected e end.

(** ** Rendered elements *)

(** A React element as rendered: a tag with its attributes, its event
    handlers by prop name ([onClick], [onChange], ...) and its children,
    or a text node.  [H] is the type of the handlers of a page. *)
Inductive VNode (H : Type) :=
  | VElem (tag : string) (attrs : list (string * string)) (handlers : list (string * H))
          (children : list (VNode H))
  | VText (s : string).
Arguments VElem {H} tag attrs handlers children.
Arguments VText {H} s.

Fixpoint assoc_str {A} (k : string) (l : list (string * A)) : option A :=
  match l with
  | [] => None
  | (k', v) :: rest => if String.eqb k k' then Some v else assoc_str k rest
  end.

(** The text an element shows. *)
Fixpoint vtext {H} (n : VNode H) : string :=
  match n with
  | VText s => s
  | VElem _ _ _ ch => String.concat EmptyString (map vtext ch)
  end.

(** Every element with a handler for [ev], in document order, with the
    text it shows. *)
Fixpoint vhandlers {H} (ev : string) (n : VNode H) : list (string * H) :=
  match n with
  | VText _ => []
  | VElem _ _ hs ch =>
      match assoc_str ev hs with Some h => [(vtext n, h)] | None => [] end
      ++ flat_map (vhandlers ev) ch
  end.

(** The [href] of every [a] element, in document order. *)
Fixpoint vlinks {H} (n : VNode H) : list string :=
  match n with
  | VText _ => []
  | VElem tag attrs _ ch =>
      (if String.eqb tag "a" then match assoc_str "href" attrs with Some u => [u] | None => [] end
       else [])
      ++ flat_map vlinks ch
  end.

(** An element tree with its handlers wrapped by [f]: a component's
    subtree placed inside a page whose handlers have a wider type. *)
Fixpoint vmap {H H'} (f : H -> H') (n : VNode H) : VNode H' :=
  match n with
  | VText s => VText s
  | VElem tag attrs hs ch => VElem tag attrs (map (fun kh => (kh.1, f kh.2)) hs) (map (vmap f) ch)
  end.

Lemma vhandlers_map_nil {A H} (f : A -> VNode H) ev l :
  (forall x, vhandlers ev (f x) = []) -> flat_map (vhandlers ev) (map f l) = [].
Proof. intros Hf. induction l as [|x l IH]; [done|]. cbn [map flat_map]. rewrite Hf, IH. done. Qed.

(** ** Automation *)

Create HintDb js discriminated.
Create Rewrite HintDb js_rw.

Ltac str_cases :=
  repeat match goal with
  | |- context [String.eqb ?a ?b] => destruct (String.eqb_spec a b); subst
  | H : context [String.eqb ?a ?b] |- _ => destruct (String.eqb_spec a b); subst
  end.

(** Case analysis on [x ∈ [a; b; ...]] for a literal list: each case
    [x = a] is closed by [tac]. *)
Ltac elem_cases H tac :=
  repeat (apply elem_of_cons in H as [->|H]; [tac|]);
  apply elem_of_nil in H; done.

(** Exhaustive case analysis on a byte: 256 goals, each closed by
    computation. *)
Ltac ascii_cases c :=
  destruct c as [[] [] [] [] [] [] [] []].

(** ** Shared lemmas on strings *)

Lemma str_app_nil_r s : (s ++ EmptyString)%string = s.
Proof. induction s as [|c s IH]; simpl; [done|]. rewrite IH. done. Qed.

Lemma str_app_assoc a b c : (a ++ (b ++ c))%string = ((a ++ b) ++ c)%string.
Proof. induction a as [|x a IH]; simpl; [done|]. rewrite IH. done. Qed.

Lemma str_length_app a b : String.length (a ++ b) = String.length a + String.length b.
Proof. induction a as [|x a IH]; simpl; [done|]. rewrite IH. done. Qed.

Lemma str_ltrim_forallb s :
  str_forallb js_is_whitespace (str_ltrim s) = str_forallb js_is_whitespace s.
Proof.
  induction s as [|c s IH]; simpl; [done|].
  destruct (js_is_whitespace c) eqn:E; simpl; rewrite ?E; done.
Qed.

Lemma str_rtrim_empty s :
  str_rtrim s = EmptyString <-> str_forallb js_is_whitespace s = true.
Proof.
  induction s as [|c s IH]; simpl; [done|].
  destruct (str_rtrim s) eqn:E.
  - destruct (js_is_whitespace c); simpl; [|done]. split; [|done]. intros; apply IH; done.
  - split; [done|]. intros Hc. apply andb_prop in Hc as [_ Hs]. apply IH in Hs. done.
Qed.

(** [!s.trim()] holds exactly when [s] is all white space. *)
Lemma js_trim_empty s :
  js_trim s = EmptyString <-> str_forallb js_is_whitespace s = true.
Proof. unfold js_trim. rewrite str_rtrim_empty, str_ltrim_forallb. done. Qed.

Lemma str_split_no_sep sep p :
  str_excludes sep p = true -> str_split sep p = [p].
Proof.
  induction p as [|c p IH]; simpl; [done|].
  intros [Hc Hp]%andb_prop. rewrite IH by done.
  destruct (Ascii.eqb c sep); done.
Qed.

Lemma str_split_app sep p rest :
  str_excludes sep p = true ->
  str_split sep (p ++ String sep rest) = p :: str_split sep rest.
Proof.
  induction p as [|c p IH]; simpl.
  - rewrite Ascii.eqb_refl. done.
  - intros [Hc Hp]%andb_prop. rewrite IH by done.
    destruct (Ascii.eqb c sep); done.
Qed.

(** [s.split(sep)] undoes [parts.join(sep)] when no part holds [sep]. *)
Lemma str_split_join sep l :
  l <> [] -> Forall (fun p => str_excludes sep p = true) l ->
  str_split sep (str_join sep l) = l.
Proof.
  unfold str_join. induction l as [|p l IH]; [done|]. intros _ Hall.
  inversion Hall as [|? ? Hp Hl]; subst.
  destruct l as [|q l]; simpl.
  - apply str_split_no_sep. done.
  - rewrite str_split_app by done. f_equal. apply IH; done.
Qed.

Lemma str_split_first_app sep a b :
  str_excludes sep a = true ->
  str_split_first sep (a ++ String sep b) = Some (a, b).
Proof.
  induction a as [|c a IH]; simpl.
  - rewrite Ascii.eqb_refl. done.
  - intros [Hc Hp]%andb_prop. rewrite IH by done.
    destruct (Ascii.eqb c sep); done.
Qed.

Lemma str_excludes_app sep a b :
  str_excludes sep (a ++ b) = str_excludes sep a && str_excludes sep b.
Proof.
  unfold str_excludes. induction a as [|c a IH]; simpl; [done|].
  rewrite IH. apply andb_assoc.
Qed.

Lemma js_includes_spec l x : js_includes l x = true <-> x ∈ l.
Proof.
  unfold js_includes. rewrite existsb_exists, list_elem_of_In.
  split.
  - intros (y & Hy & Heq). apply String.eqb_eq in Heq. subst. done.
  - intros Hx. exists x. rewrite String.eqb_refl. done.
Qed.

Lemma js_includes_bool_decide l x : js_includes l x = bool_decide (x ∈ l).
Proof. apply Bool.eq_iff_eq_true. rewrite js_includes_spec, bool_decide_eq_true. done. Qed.

Lemma js_or_default_nonempty s d : s <> EmptyString -> Some s ||? d = s.
Proof. intros Hs. simpl. destruct (String.eqb_spec s EmptyString); done. Qed.

(** [!!x] on an optional value. *)
Lemma bool_decide_is_Some_None {A} : bool_decide (is_Some (@None A)) = false.
Proof. apply bool_decide_false. intros [? ?]. done. Qed.

Lemma bool_decide_is_Some_Some {A} (a : A) : bool_decide (is_Some (Some a)) = true.
Proof. apply bool_decide_true. eauto. Qed.

(** ** Shared lemmas on promises *)

Lemma promise_bind_resolved {A B} (a : A) (f : A -> Promise B) :
  (Resolved a ≫= f) = f a.
Proof. done. Qed.

Lemma promise_bind_rejected {A B} (e : JsError) (f : A -> Promise B) :
  (Rejected e ≫= f) = Rejected e.
Proof. done. Qed.

(** [array.map(f)] with a callback that may throw: the first throw
    wins. *)
Lemma promise_mapM_resolved {A B} (f : A -> Promise B) (g : A -> B) l :
  (forall x, x ∈ l -> f x = Resolved (g x)) -> mapM f l = Resolved (map g l).
Proof.
  induction l as [|x l IH]; intros Hf; [done|]. simpl.
  rewrite Hf by (left; done). simpl. rewrite IH; [done|].
  intros y Hy. apply Hf. right. done.
Qed.

Lemma promise_mapM_rejected {A B} (f : A -> Promise B) e l :
  (forall x, (exists b, f x = Resolved b) \/ f x = Rejected e) ->
  mapM f l = Rejected e <-> Exists (fun x => f x = Rejected e) l.
Proof.
  intros Hf. induction l as [|x l IH]; simpl.
  - split; [done|]. inversion 1.
  - rewrite Exists_cons. destruct (Hf x) as [[b Hb]|Hx]; rewrite ?Hb, ?Hx; simpl.
    + rewrite <- IH. destruct (mapM f l); simpl; naive_solver.
    + naive_solver.
Qed.

(** [array.map((item, index) => ...)] whose callback never throws on
    this array. *)
Lemma promise_mapM_imap {A B} (f : nat -> A -> Promise B) l :
  (forall i x, l !! i = Some x -> exists y, f i x = Resolved y) ->
  exists out, mapM (fun p => p) (imap f l) = Resolved out /\ length out = length l /\
    forall i x y, l !! i = Some x -> f i x = Resolved y -> out !! i = Some y.
Proof.
  revert f. induction l as [|x l IH]; intros f Hf.
  - exists []. done.
  - destruct (Hf 0 x eq_refl) as [y0 Hy0].
    destruct (IH (f ∘ S)) as (out & Hout & Hlen & Hat); [intros i; apply (Hf (S i))|].
    exists (y0 :: out). rewrite imap_cons. simpl. rewrite Hy0. simpl. rewrite Hout.
    split_and!; [done|simpl; lia|].
    intros [|i] x' y Hl Hy; simpl in *; [simplify_eq; congruence|]. eapply Hat; done.
Qed.

#[export] Hint Rewrite @promise_bind_resolved @promise_bind_rejected
  @bool_decide_is_Some_None @bool_decide_is_Some_Some : js_rw.
#[export] Hint Resolve str_split_no_sep str_split_first_app : js.

Lemma str_break_app p a b :
  str_forallb (fun c => negb (p c)) a = true ->
  match b with EmptyString => True | String c _ => p c = true end ->
  str_break p (a +:+ b) = (a, b).
Proof.
  intros Ha Hb. induction a as [|c a IH]; simpl.
  - destruct b as [|c b]; simpl; [done|]. rewrite Hb. done.
  - simpl in Ha. apply andb_prop in Ha as [Hc Ha].
    destruct (p c); [done|]. rewrite IH by done. done.
Qed.

Lemma str_forallb_impl (p q : ascii -> bool) s :
  (forall c, p c = true -> q c = true) ->
  str_forallb p s = true -> str_forallb q s = true.
Proof.
  intros Hpq. induction s as [|c s IH]; simpl; [done|].
  intros [Hc Hs]%andb_prop. rewrite Hpq, IH; done.
Qed.

Lemma str_strip_prefix_app pre s : str_strip_prefix pre (pre +:+ s) = Some s.
Proof. induction pre as [|c pre IH]; simpl; [done|]. rewrite Ascii.eqb_refl. done. Qed.

(** ** Shared lemmas on lists *)

Lemma filter_Forall_id {A} (P : A -> Prop) `{!forall x, Decision (P x)} (l : list A) :
  Forall P l -> filter P l = l.
Proof.
  induction 1 as [|x l Hx Hl IH]; [done|].
  rewrite filter_cons. case_decide; [|done]. rewrite IH. done.
Qed.

Lemma NoDup_map_filter {A B} (f : A -> B) (P : A -> Prop) `{!forall x, Decision (P x)} l :
  NoDup (map f l) -> NoDup (map f (filter P l)).
Proof.
  induction l as [|a l IH]; simpl; [done|]. intros (Ha & Hl)%NoDup_cons.
  rewrite filter_cons. case_decide; simpl; [|auto]. constructor; [|auto].
  intros Hin. apply Ha. rewrite list_elem_of_In, in_map_iff in Hin |- *.
  destruct Hin as (y & <- & Hy). exists y. split; [done|].
  rewrite <- list_elem_of_In, list_elem_of_filter in Hy. rewrite <- list_elem_of_In. naive_solver.
Qed.

Lemma list_lookup_map {A B} (f : A -> B) l i : map f l !! i = f <$> l !! i.
Proof. revert i. induction l as [|x l IH]; intros [|i]; simpl; done. Qed.

Lemma Exists_iff_pointwise {A} (P Q : A -> Prop) l :
  (forall x, P x <-> Q x) -> Exists P l <-> Exists Q l.
Proof. intros H. split; induction 1; constructor; naive_solver. Qed.

Lemma omap_cons_eq {A B} (f : A -> option B) x l :
  omap f (x :: l) = match f x with Some y => y :: omap f l | None => omap f l end.
Proof. done. Qed.

(** Appending an element always changes a list. *)
Lemma list_snoc_neq {A} (l : list A) (x : A) : l <> l ++ [x].
Proof. intros H. apply (f_equal length) in H. rewrite length_app in H. simpl in H. lia. Qed.

Lemma str_app_cons_nonempty a c b : a +:+ String c b <> EmptyString.
Proof. destruct a; done. Qed.
