(* ===== verification/Url.v ===== *)
(** * Url: the parts of the WHATWG URL standard the gate relies on

    [src/middleware.ts] builds its redirect targets with [new URL(path,
    request.url)] and stores the original request URL in the login URL
    with [loginUrl.searchParams.set('callbackUrl', request.url)];
    [src/app/login/page.tsx] reads it back with
    [useSearchParams().get("callbackUrl")].  Neither routine is code of
    the repository: they are the platform's [URL] and [URLSearchParams],
    modelled here from the URL standard (application/x-www-form-urlencoded
    serializer and parser, the [set]/[get] methods, the URL record and its
    serialization) so that the round trip of the callback URL can be
    proved rather than assumed.  Strings are byte strings. *)

From S2P Require Import Prelude.

Module FormUrlencoded.

(** Upper-case hexadecimal digits, as the percent-encoder writes them. *)
Definition hex_digit (n : nat) : ascii :=
  ascii_of_nat (if n <? 10 then 48 + n else 55 + n).

(** ASCII hex digit value, either case, as the percent-decoder reads them. *)
Definition hex_value (c : ascii) : option nat :=
  let n := nat_of_ascii c in
  if (48 <=? n) && (n <=? 57) then Some (n - 48)
  else if (65 <=? n) && (n <=? 70) then Some (n - 55)
  else if (97 <=? n) && (n <=? 102) then Some (n - 87)
  else None.

(** The bytes the urlencoded serializer leaves as they are. *)
Definition is_form_unreserved (c : ascii) : bool :=
  is_ascii_alnum c || Ascii.eqb c "*" || Ascii.eqb c "-"
  || Ascii.eqb c "." || Ascii.eqb c "_".

Definition form_encode_byte (c : ascii) : string :=
  if is_form_unreserved c then String c EmptyString
  else if Ascii.eqb c " " then "+"
  else String "%" (String (hex_digit (nat_of_ascii c / 16))
                     (String (hex_digit (nat_of_ascii c mod 16)) EmptyString)).

Fixpoint form_encode (s : string) : string :=
  match s with
  | EmptyString => EmptyString
  | String c s' => form_encode_byte c +:+ form_encode s'
  end.

(** The parser first replaces every [+] by a space ... *)
Fixpoint plus_to_space (s : string) : string :=
  match s with
  | EmptyString => EmptyString
  | String c s' => String (if Ascii.eqb c "+" then " "%char else c) (plus_to_space s')
  end.

(** ... then percent-decodes: a [%] followed by two hex digits is one
    byte, any other [%] is kept. *)
Fixpoint percent_decode (s : string) : string :=
  match s with
  | EmptyString => EmptyString
  | String c s' =>
      if Ascii.eqb c "%" then
        match s' with
        | String h1 (String h2 rest) =>
            match hex_value h1, hex_value h2 with
            | Some a, Some b => String (ascii_of_nat (16 * a + b)) (percent_decode rest)
            | _, _ => String c (percent_decode s')
            end
        | _ => String c (percent_decode s')
        end
      else String c (percent_decode s')
  end.

Definition form_decode (s : string) : string := percent_decode (plus_to_space s).

(** The urlencoded serializer: [name=value] pairs joined by [&]. *)
Definition form_serialize_pair (p : string * string) : string :=
  form_encode p.1 +:+ String "=" (form_encode p.2).

Definition form_serialize (l : list (string * string)) : string :=
  str_join "&" (map form_serialize_pair l).

(** The urlencoded parser: split on [&], skip empty sequences, split each
    at its first [=] (a sequence with none is a name with an empty
    value). *)
Definition form_parse_sequence (sq : string) : string * string :=
  match str_split_first "=" sq with
  | Some (n, v) => (form_decode n, form_decode v)
  | None => (form_decode sq, EmptyString)
  end.

Definition form_parse (q : string) : list (string * string) :=
  map form_parse_sequence (filter (fun sq => sq <> EmptyString) (str_split "&" q)).

End FormUrlencoded.

(** ** URLSearchParams: an ordered list of name/value pairs *)

Module SearchParams.
Import FormUrlencoded.

(** [params.get(name)]: the value of the first pair with that name, or
    [null]. *)
Fixpoint usp_get (name : string) (l : list (string * string)) : option string :=
  match l with
  | [] => None
  | (n, v) :: l' => if String.eqb n name then Some v else usp_get name l'
  end.

(** [params.set(name, value)]: the first pair with that name gets the
    value and the others are removed; with no such pair, the pair is
    appended. *)
Fixpoint usp_replace_first (name value : string) (l : list (string * string))
    : list (string * string) :=
  match l with
  | [] => []
  | (n, v) :: l' =>
      if String.eqb n name
      then (name, value) :: filter (fun p => p.1 <> name) l'
      else (n, v) :: usp_replace_first name value l'
  end.

Definition usp_set (name value : string) (l : list (string * string))
    : list (string * string) :=
  if existsb (fun p => String.eqb p.1 name) l
  then usp_replace_first name value l
  else l ++ [(name, value)].

End SearchParams.

(** ** URL records *)

Module URL.
Import FormUrlencoded SearchParams.

(** A parsed absolute URL of a special scheme ([http], [https]): the
    scheme, the host with its port, the path, and a query and fragment
    that are [null] or a string, as in the URL record of the standard. *)
Record Url := mkUrl {
  url_scheme : string;
  url_host : string;
  url_pathname : string;
  url_query : option string;
  url_fragment : option string
}.

(** [url.origin]: [scheme://host[:port]]. *)
Definition url_origin (u : Url) : string := url_scheme u +:+ "://" +:+ url_host u.

(** [url.href]. *)
Definition url_href (u : Url) : string :=
  url_origin u +:+ url_pathname u
    +:+ (match url_query u with Some q => String "?" q | None => EmptyString end)
    +:+ (match url_fragment u with Some f => String "#" f | None => EmptyString end).

(** [new URL(path, base)] for an absolute path with no query and no
    fragment, as both calls of [src/middleware.ts] write it. *)
Definition new_URL_path (path : string) (base : Url) : Url :=
  mkUrl (url_scheme base) (url_host base) path None None.

(** [url.searchParams]: the list parsed from the query. *)
Definition url_search_params (u : Url) : list (string * string) :=
  match url_query u with
  | Some q => form_parse q
  | None => []
  end.

(** The update steps of [URLSearchParams]: the query becomes the
    serialization, or [null] when that is empty. *)
Definition url_update_query (u : Url) (l : list (string * string)) : Url :=
  let q := form_serialize l in
  mkUrl (url_scheme u) (url_host u) (url_pathname u)
        (if String.eqb q EmptyString then None else Some q) (url_fragment u).

(** [url.searchParams.set(name, value)]. *)
Definition url_search_params_set (name value : string) (u : Url) : Url :=
  url_update_query u (usp_set name value (url_search_params u)).

(** [new URL(s)] for an absolute URL of a special scheme, without the
    normalizations of the standard's parser (case folding, dot segments,
    percent-encoding of the path): scheme, [://], a non-empty host up to
    [/], [?] or [#], the path (["/"] when empty), the query and the
    fragment.  [None] is the [TypeError] of an invalid URL. *)
Definition parse_path_query_fragment (r1 : string)
    : string * option string * option string :=
  let '(path, r2) := str_break (is_one_of "?#") r1 in
  let '(query, r3) :=
    match str_strip_prefix "?" r2 with
    | Some q => let '(q1, rest) := str_break (is_one_of "#") q in (Some q1, rest)
    | None => (None, r2)
    end in
  (if String.eqb path EmptyString then "/" else path, query, str_strip_prefix "#" r3).

Definition parse_absolute_url (s : string) : option Url :=
  let '(scheme, r0) := str_break (fun c => Ascii.eqb c ":") s in
  match str_strip_prefix "://" r0 with
  | None => None
  | Some r =>
      let '(host, r1) := str_break (is_one_of "/?#") r in
      if String.eqb scheme EmptyString || String.eqb host EmptyString then None
      else let '(path, query, fragment) := parse_path_query_fragment r1 in
           Some (mkUrl scheme host path query fragment)
  end.

(** The URLs [parse_absolute_url] reads back from their [href]. *)
Definition url_wf (u : Url) : bool :=
  negb (String.eqb (url_scheme u) EmptyString)
  && str_forallb (fun c => negb (is_one_of ":/" c)) (url_scheme u)
  && negb (String.eqb (url_host u) EmptyString)
  && str_forallb (fun c => negb (is_one_of "/?#" c)) (url_host u)
  && match url_pathname u with String c _ => Ascii.eqb c "/" | EmptyString => false end
  && str_forallb (fun c => negb (is_one_of "?#" c)) (url_pathname u)
  && match url_query u with
     | Some q => str_forallb (fun c => negb (is_one_of "#" c)) q
     | None => true
     end.

End URL.

(** ** The serializer and the parser are inverse *)

Section FormFacts.
Import FormUrlencoded.

Lemma plus_to_space_app a b :
  plus_to_space (a +:+ b) = plus_to_space a +:+ plus_to_space b.
Proof. induction a as [|c a IH]; simpl; [done|]. rewrite IH. done. Qed.

(** Every one of the 256 bytes decodes back from its encoding, whatever
    follows it. *)
Lemma form_encode_byte_decode c rest :
  percent_decode (plus_to_space (form_encode_byte c) +:+ rest)
  = String c (percent_decode rest).
Proof. ascii_cases c; reflexivity. Qed.

Lemma form_decode_encode s : form_decode (form_encode s) = s.
Proof.
  unfold form_decode. induction s as [|c s IH]; [done|]. simpl.
  rewrite plus_to_space_app, form_encode_byte_decode, IH. done.
Qed.

Lemma form_encode_byte_excludes c :
  str_excludes "&" (form_encode_byte c) = true
  /\ str_excludes "=" (form_encode_byte c) = true.
Proof. ascii_cases c; split; reflexivity. Qed.

Lemma form_encode_excludes s :
  str_excludes "&" (form_encode s) = true /\ str_excludes "=" (form_encode s) = true.
Proof.
  induction s as [|c s [IH1 IH2]]; [done|]. simpl.
  rewrite !str_excludes_app, IH1, IH2.
  destruct (form_encode_byte_excludes c) as [-> ->]. done.
Qed.

Lemma form_serialize_pair_parse p : form_parse_sequence (form_serialize_pair p) = p.
Proof.
  destruct p as [n v]. unfold form_parse_sequence, form_serialize_pair. simpl.
  rewrite str_split_first_app by apply form_encode_excludes.
  rewrite !form_decode_encode. done.
Qed.

Lemma form_serialize_pair_excludes p :
  str_excludes "&" (form_serialize_pair p) = true.
Proof.
  destruct p as [n v]. unfold form_serialize_pair. simpl.
  destruct (form_encode_excludes n) as [Hn _], (form_encode_excludes v) as [Hv _].
  rewrite str_excludes_app. unfold str_excludes in *. simpl. rewrite Hn, Hv. done.
Qed.

Lemma form_parse_empty : form_parse EmptyString = [].
Proof. done. Qed.

(** Parsing a serialized list gives the list back, for every list of
    byte-string pairs: names and values may hold [&], [=], [+], [%] or
    spaces. *)
Lemma form_parse_serialize l : form_parse (form_serialize l) = l.
Proof.
  destruct l as [|p l]; [done|]. unfold form_parse, form_serialize.
  rewrite str_split_join.
  2: done.
  2: apply Forall_map, Forall_true; intros; apply form_serialize_pair_excludes.
  rewrite filter_Forall_id.
  - rewrite map_map. erewrite map_ext; [apply map_id|]. apply form_serialize_pair_parse.
  - apply Forall_map, Forall_true. intros [n v]. apply str_app_cons_nonempty.
Qed.

End FormFacts.

(** ** [get] after [set] *)

Section SearchParamsFacts.
Import SearchParams.

Lemma usp_get_app_absent name l l' :
  existsb (fun p => String.eqb p.1 name) l = false ->
  usp_get name (l ++ l') = usp_get name l'.
Proof.
  induction l as [|[n v] l IH]; simpl; [done|].
  intros [Hn Hl]%orb_false_elim. rewrite Hn. apply IH, Hl.
Qed.

Lemma usp_get_filter_other name other l :
  other <> name ->
  usp_get other (filter (fun p => p.1 <> name) l) = usp_get other l.
Proof.
  intros Hne. induction l as [|[n v] l IH]; [done|].
  rewrite filter_cons. simpl. case_decide as Hn; simpl; rewrite ?IH; str_cases; done.
Qed.

Lemma usp_get_replace_first name value l :
  existsb (fun p => String.eqb p.1 name) l = true ->
  usp_get name (usp_replace_first name value l) = Some value.
Proof.
  induction l as [|[n v] l IH]; simpl; [done|].
  str_cases; simpl; rewrite ?String.eqb_refl; [done|].
  intros Hl. apply IH in Hl. destruct (String.eqb_spec n name); done.
Qed.

Lemma usp_get_replace_first_other name other value l :
  other <> name ->
  usp_get other (usp_replace_first name value l) = usp_get other l.
Proof.
  intros Hne. induction l as [|[n v] l IH]; simpl; [done|].
  str_cases; simpl; str_cases; rewrite ?usp_get_filter_other; done.
Qed.

(** [params.set(name, value)] then [params.get(name)] gives [value]. *)
Lemma usp_get_set name value l : usp_get name (usp_set name value l) = Some value.
Proof.
  unfold usp_set. destruct (existsb _ l) eqn:E.
  - apply usp_get_replace_first, E.
  - rewrite usp_get_app_absent by done. simpl. rewrite String.eqb_refl. done.
Qed.

(** ... and leaves every other name as it was. *)
Lemma usp_get_set_other name other value l :
  other <> name -> usp_get other (usp_set name value l) = usp_get other l.
Proof.
  intros Hne. unfold usp_set. destruct (existsb _ l) eqn:E.
  - apply usp_get_replace_first_other, Hne.
  - induction l as [|[n v] l IH]; simpl in *.
    + destruct (String.eqb_spec name other); [congruence|done].
    + apply orb_false_elim in E as [_ E]. rewrite IH by done. done.
Qed.

End SearchParamsFacts.

Section UrlFacts.
Import FormUrlencoded SearchParams URL.

(** The search params of a URL after an update are the list it was
    updated with: the query the update stores parses back to it. *)
Lemma url_search_params_update u l : url_search_params (url_update_query u l) = l.
Proof.
  unfold url_search_params, url_update_query. simpl.
  destruct (String.eqb_spec (form_serialize l) EmptyString) as [E|E].
  - rewrite <- (form_parse_serialize l), E. done.
  - apply form_parse_serialize.
Qed.

Lemma url_search_params_set_path name value u :
  url_pathname (url_search_params_set name value u) = url_pathname u
  /\ url_origin (url_search_params_set name value u) = url_origin u.
Proof. done. Qed.

End UrlFacts.

#[export] Hint Rewrite form_parse_serialize form_decode_encode usp_get_set
  url_search_params_update : js_rw.

Section ParseFacts.
Import URL.

(** [new URL(u.href)] is [u], for every well-formed URL. *)
Lemma parse_absolute_url_href u :
  url_wf u = true -> parse_absolute_url (url_href u) = Some u.
Proof.
  destruct u as [sc ho pa qu fr]. unfold url_wf, url_href, url_origin. simpl.
  intros H. repeat apply andb_prop in H as [H ?].
  destruct (String.eqb_spec sc EmptyString) as [|Hsc]; [done|].
  destruct (String.eqb_spec ho EmptyString) as [|Hho]; [done|].
  unfold parse_absolute_url, parse_path_query_fragment.
  rewrite <- !str_app_assoc, str_break_app; [simpl| |done].
  2: { refine (str_forallb_impl _ _ _ _ H5). intros c. simpl.
       destruct (Ascii.eqb c ":"); done. }
  destruct pa as [|c pa]; [done|]. apply Ascii.eqb_eq in H2 as ->.
  rewrite str_break_app; [|exact H3|done].
  rewrite str_break_app; [|exact H1|destruct qu, fr; done].
  destruct qu as [q|]; simpl.
  - rewrite str_break_app; [|exact H0|destruct fr; done].
    destruct (String.eqb_spec sc EmptyString), (String.eqb_spec ho EmptyString); [done..|].
    destruct fr; done.
  - destruct (String.eqb_spec sc EmptyString), (String.eqb_spec ho EmptyString); [done..|].
    destruct fr; done.
Qed.

(** A string made of a well-formed origin and a path parses, to a URL
    of that origin. *)
Lemma parse_absolute_url_origin base rest :
  url_wf base = true ->
  match rest with EmptyString => True | String c _ => c = "/"%char end ->
  exists v, parse_absolute_url (url_origin base +:+ rest) = Some v
    /\ url_scheme v = url_scheme base /\ url_host v = url_host base.
Proof.
  destruct base as [sc ho pa qu fr]. unfold url_wf, url_origin. cbn.
  intros H Hrest. repeat apply andb_prop in H as [H ?].
  destruct (String.eqb_spec sc EmptyString) as [|Hsc]; [done|].
  destruct (String.eqb_spec ho EmptyString) as [|Hho]; [done|].
  unfold parse_absolute_url.
  rewrite <- !str_app_assoc, str_break_app;
    [cbn [str_strip_prefix String.append]; rewrite !Ascii.eqb_refl; cbv beta iota| |done].
  2: { refine (str_forallb_impl _ _ _ _ H5). intros c. simpl.
       destruct (Ascii.eqb c ":"); done. }
  rewrite str_break_app; [|exact H3|destruct rest; [done|subst; done]].
  destruct (String.eqb_spec sc EmptyString), (String.eqb_spec ho EmptyString); try done.
  destruct (parse_path_query_fragment rest) as [[p q] f]. eexists. split; [reflexivity|done].
Qed.

(** A well-formed URL's [href] starts with its scheme: it is not a
    relative URL. *)
Lemma url_href_wf_absolute u :
  url_wf u = true ->
  str_starts_with "/" (url_href u) = false /\ url_href u <> EmptyString.
Proof.
  destruct u as [[|c sc] ho pa qu fr]; unfold url_wf; simpl; [done|].
  intros H. repeat apply andb_prop in H as [H ?].
  unfold str_starts_with, url_href, url_origin.
  cbn [str_strip_prefix String.append url_scheme url_host url_pathname url_query url_fragment].
  destruct (Ascii.eqb_spec "/" c) as [<-|]; [cbv in H; discriminate|].
  split; [reflexivity|discriminate].
Qed.

End ParseFacts.
