(* ===== verification/Session.v ===== *)
(** * Session: the request and the session provider the gate consults

    [src/middleware.ts] calls [getToken({ req: request, secret:
    process.env.NEXTAUTH_SECRET })] of next-auth and only looks at whether
    the result is [null].  This file holds the request the gate receives,
    the interface a session provider offers it ([SessionProvider], with
    its laws as classes), and a model of next-auth's own [getToken]
    ([NextAuth.getToken]), written from that library's source: read the
    session cookie, else an [Authorization: Bearer] header, and decode the
    token with the secret, any decoding failure giving [null].  Only the
    [decodeURIComponent] of the bearer token is outside that [try]. *)

From S2P Require Import Prelude Url.
Import URL.

(** ** Requests *)

(** A [NextRequest]: its URL ([request.url] is [url_href (req_url r)],
    [request.nextUrl.pathname] is [url_pathname (req_url r)]), the value
    of the session cookie, and the [Authorization] header. *)
Record Request := mkRequest {
  req_url : Url;
  req_session_cookie : option string;
  req_authorization : option string
}.

(** The same credentials sent to another URL: what the browser does when
    it follows a redirect. *)
Definition req_at (r : Request) (u : Url) : Request :=
  mkRequest u (req_session_cookie r) (req_authorization r).

(** ** The interface the gate is proved against *)

Class SessionProvider (Claims : Type) :=
  getToken : Request -> option string -> Promise (option Claims).

(** The token depends on the credentials the request carries, not on the
    URL it is sent to. *)
Class SessionProviderLaws (Claims : Type) `{!SessionProvider Claims} :=
  getToken_url_indep : forall r u secret, getToken (req_at r u) secret = getToken r secret.

(** The contract the spec asks of verification: failures are [null],
    never a rejected promise. *)
Class NeverRejects (Claims : Type) `{!SessionProvider Claims} :=
  getToken_resolves : forall r secret, exists t, getToken r secret = Resolved t.

(** ** next-auth's [getToken] *)

Module NextAuth.
Import FormUrlencoded.

(** The UTF-8 sequences [decodeURIComponent] accepts (ECMA-262, Decode,
    with Unicode's Table 3-7): a lead byte [C2]-[F4] announcing one to
    three continuation bytes [80]-[BF], the second byte narrowed after
    [E0], [ED], [F0] and [F4] so that no overlong form, no surrogate and
    nothing above U+10FFFF is accepted. *)
Definition utf8_continuations (lead : nat) : option nat :=
  if (194 <=? lead) && (lead <=? 223) then Some 1
  else if (224 <=? lead) && (lead <=? 239) then Some 2
  else if (240 <=? lead) && (lead <=? 244) then Some 3
  else None.

Definition utf8_second_ok (lead b : nat) : bool :=
  let '(lo, hi) := if lead =? 224 then (160, 191) else if lead =? 237 then (128, 159)
                   else if lead =? 240 then (144, 191) else if lead =? 244 then (128, 143)
                   else (128, 191) in
  (lo <=? b) && (b <=? hi).

Definition utf8_cont_ok (b : nat) : bool := (128 <=? b) && (b <=? 191).

Definition bytes_string (l : list nat) : string :=
  fold_right (fun b s => String (ascii_of_nat b) s) EmptyString l.

(** [decodeURIComponent]: [%XY] with two hex digits is a byte; a byte
    below [80] is a character, a larger one must start a UTF-8 sequence
    whose continuation bytes follow as [%XY] escapes; anything else
    throws a [URIError] ([None]).  [need] is the number of continuation
    bytes still expected and [acc] the bytes of the sequence so far.
    The decoded text is kept as its UTF-8 bytes, like every string of
    this development. *)
Fixpoint decode_go (need : nat) (acc : list nat) (s : string) : option string :=
  match s with
  | EmptyString => if need =? 0 then Some EmptyString else None
  | String c s' =>
      if Ascii.eqb c "%" then
        match s' with
        | String h1 (String h2 rest) =>
            match hex_value h1, hex_value h2 with
            | Some a, Some b =>
                let byte := 16 * a + b in
                match need, acc with
                | 0, _ =>
                    if byte <? 128 then String (ascii_of_nat byte) <$> decode_go 0 [] rest
                    else match utf8_continuations byte with
                         | Some n => decode_go n [byte] rest
                         | None => None
                         end
                | S need', lead :: more =>
                    if match more with [] => utf8_second_ok lead byte | _ => utf8_cont_ok byte end
                    then match need' with
                         | 0 => append (bytes_string (acc ++ [byte])) <$> decode_go 0 [] rest
                         | _ => decode_go need' (acc ++ [byte]) rest
                         end
                    else None
                | S _, [] => None
                end
            | _, _ => None
            end
        | _ => None
        end
      else if need =? 0 then String c <$> decode_go 0 [] s' else None
  end.

Definition decode_uri_component (s : string) : option string := decode_go 0 [] s.

Section GetToken.
(** [decode({ token, secret })]: the JWT decryption, [None] when it
    throws. *)
Context {Claims : Type} (jwt_decode : string -> string -> option Claims).

(** [authorizationHeader.split(" ")[1]], [undefined] being read as the
    string ["undefined"] by [decodeURIComponent]. *)
Definition bearer_token (h : string) : option (Promise string) :=
  match str_split " " h with
  | scheme :: rest =>
      if String.eqb scheme "Bearer" then
        let raw := match rest with t :: _ => t | [] => "undefined" end in
        Some (match decode_uri_component raw with
              | Some t => Resolved t
              | None => Rejected (URIError "URI malformed")
              end)
      else None
  | [] => None
  end.

Definition getToken_impl (req : Request) (secret : option string)
    : Promise (option Claims) :=
  let cookie := default EmptyString (req_session_cookie req) in
  token ← (if String.eqb cookie EmptyString then
             match req_authorization req ≫= bearer_token with
             | Some p => p
             | None => Resolved EmptyString
             end
           else Resolved cookie);
  if String.eqb token EmptyString then Resolved None
  else match secret with
       | Some s => Resolved (jwt_decode token s)
       | None => Resolved None
       end.

End GetToken.
End NextAuth.

#[export] Instance nextauth_provider {Claims} (jwt_decode : string -> string -> option Claims)
  : SessionProvider Claims := NextAuth.getToken_impl jwt_decode.

#[export] Instance nextauth_provider_laws {Claims} (jwt_decode : string -> string -> option Claims)
  : SessionProviderLaws Claims (SessionProvider0 := nextauth_provider jwt_decode).
Proof. intros r u secret. done. Qed.

(** ** Facts about next-auth's [getToken] *)

Section NextAuthFacts.
Context {Claims : Type} (jwt_decode : string -> string -> option Claims).

Lemma nextauth_getToken_no_secret r t :
  NextAuth.getToken_impl jwt_decode r None = Resolved t -> t = None.
Proof.
  unfold NextAuth.getToken_impl. intros H.
  repeat case_match; simplify_eq/=; try done.
  - destruct p; simplify_eq/=. case_match; simplify_eq; done.
  - match goal with E : _ = false |- _ => rewrite E in H end. simplify_eq. done.
Qed.

(** Without an [Authorization] header, [getToken] always settles. *)
Lemma nextauth_getToken_cookie_resolves r secret :
  req_authorization r = None ->
  exists t, NextAuth.getToken_impl jwt_decode r secret = Resolved t.
Proof.
  intros Ha. unfold NextAuth.getToken_impl. rewrite Ha. simpl.
  destruct (String.eqb _ _); autorewrite with js_rw; repeat case_match; eauto.
Qed.

End NextAuthFacts.
