(* ===== verification/Gate.v ===== *)
(** * Gate: the request middleware of [src/middleware.ts]

    [middleware] is the exported [middleware] function, line by line: one
    awaited [getToken], the login-page branch, the unauthenticated branch
    with its callback URL, and the fall-through.  [Matcher] is the
    [config.matcher] regular expression, and [run_middleware] the way
    Next.js composes the two: a request whose path the matcher rejects
    never reaches the middleware.  [Spec] is the decision table of the
    specification (section 4.1), stated on what a browser observes of a
    response, and the theorems of this file show that the middleware
    refines it, whatever provider satisfies the interface of
    [Session.v]. *)

From S2P Require Import Prelude Url Session.
Import FormUrlencoded SearchParams URL.

(** ** Responses *)

(** [NextResponse.next()] and [NextResponse.redirect(url)] (status 307). *)
Inductive Response :=
  | NextResponse_next
  | NextResponse_redirect (location : Url).

(** ** The middleware *)

Section Middleware.
Context {Claims : Type} `{!SessionProvider Claims}.

(** [process.env.NEXTAUTH_SECRET]: [None] when unset. *)
Variable NEXTAUTH_SECRET : option string.

(** Lines 12-30: the decision, once [isAuthenticated] is known. *)
Definition middleware_decision (request : Request) (isAuthenticated : bool) : Response :=
  let isLoginPage := String.eqb (url_pathname (req_url request)) "/login" in
  if isLoginPage then
    if isAuthenticated
    then NextResponse_redirect (new_URL_path "/dashboard" (req_url request))
    else NextResponse_next
  else if negb isAuthenticated then
    let loginUrl := new_URL_path "/login" (req_url request) in
    let loginUrl := url_search_params_set "callbackUrl" (url_href (req_url request)) loginUrl in
    NextResponse_redirect loginUrl
  else NextResponse_next.

(** Lines 5-10: await the token, then decide. *)
Definition middleware (request : Request) : Promise Response :=
  token ← getToken request NEXTAUTH_SECRET;
  let isAuthenticated := bool_decide (is_Some token) in
  mret (middleware_decision request isAuthenticated).

End Middleware.

(** ** The matcher *)

Module Matcher.

(** A character of the regular expression's lookahead alternatives: a
    literal, or [.], which matches anything but a line terminator. *)
Inductive PatChar := PLit (c : ascii) | PAny.

Fixpoint regex_of_string (s : string) : list PatChar :=
  match s with
  | EmptyString => []
  | String c s' => (if Ascii.eqb c "." then PAny else PLit c) :: regex_of_string s'
  end.

(** [.] without the [s] flag: every character but [\n] and [\r] (the
    other two line terminators are not ASCII). *)
Definition regex_dot (c : ascii) : bool :=
  negb (Ascii.eqb c "010" || Ascii.eqb c "013").

Fixpoint pat_prefix (p : list PatChar) (s : string) : bool :=
  match p, s with
  | [], _ => true
  | PLit c :: p', String d s' => Ascii.eqb c d && pat_prefix p' s'
  | PAny :: p', String d s' => regex_dot d && pat_prefix p' s'
  | _ :: _, EmptyString => false
  end.

(** The alternatives of [(?!api/auth|_next/static|_next/image|favicon.ico)],
    as written in the source. *)
Definition matcher_exclusions : list string :=
  ["api/auth"; "_next/static"; "_next/image"; "favicon.ico"].

(** The pattern of [config.matcher] matched against the whole pathname:
    a slash, then (dot-star) any run of non-line-terminators that does not
    begin with one of the alternatives. *)
Definition matcher_matches (pathname : string) : bool :=
  match pathname with
  | String c rest =>
      Ascii.eqb c "/"
      && negb (existsb (fun alt => pat_prefix (regex_of_string alt) rest) matcher_exclusions)
      && str_forallb regex_dot rest
  | EmptyString => false
  end.

End Matcher.
Import Matcher.

(** The request pipeline: the middleware runs only on matched paths. *)
Definition run_middleware {Claims} `{!SessionProvider Claims}
    (secret : option string) (request : Request) : Promise Response :=
  if matcher_matches (url_pathname (req_url request))
  then middleware secret request
  else Resolved NextResponse_next.

(** ** The decision table of the specification *)

Module Spec.

(** What a browser sees of the gate's answer: the page is served, or it
    is sent to [origin] [path] with, perhaps, a [callbackUrl] parameter. *)
Inductive Decision :=
  | Forward
  | RedirectTo (origin path : string) (callback : option string).

Definition observe (resp : Response) : Decision :=
  match resp with
  | NextResponse_next => Forward
  | NextResponse_redirect u =>
      RedirectTo (url_origin u) (url_pathname u) (usp_get "callbackUrl" (url_search_params u))
  end.

(** The four cells of the table: login page or protected path, with a
    session or without one. *)
Definition decision_table (origin : string) (is_login authenticated : bool)
    (original_url : string) : Decision :=
  match is_login, authenticated with
  | true, true => RedirectTo origin "/dashboard" None
  | true, false => Forward
  | false, true => Forward
  | false, false => RedirectTo origin "/login" (Some original_url)
  end.

End Spec.

(** ** Concrete requests *)

Definition localhost (path : string) : Url := URL.mkUrl "http" "localhost:3000" path None None.

(** A verifier that accepts the token ["valid"] and nothing else. *)
Definition demo_decode (token secret : string) : option unit :=
  if String.eqb token "valid" then Some tt else None.

(** ** The middleware refines the decision table *)

Section GateFacts.
Context {Claims : Type} `{!SessionProvider Claims}.
Import Spec.

Lemma middleware_resolved secret r t :
  getToken r secret = Resolved t ->
  middleware secret r = Resolved (middleware_decision r (bool_decide (is_Some t))).
Proof. intros Ht. unfold middleware. rewrite Ht. done. Qed.

(** C1. Whenever the session provider answers, the middleware's response
    is the cell of the decision table for (login page?, authenticated?):
    an authenticated visit of [/login] goes to [/dashboard] on the same
    origin; an anonymous visit of a protected path goes to [/login] on
    the same origin, whose [callbackUrl] parameter reads back as the full
    original URL; the two other cells serve the page. *)
Theorem middleware_refines_decision_table secret r t :
  getToken r secret = Resolved t ->
  exists resp, middleware secret r = Resolved resp
    /\ observe resp = decision_table (url_origin (req_url r))
                        (String.eqb (url_pathname (req_url r)) "/login")
                        (bool_decide (is_Some t)) (url_href (req_url r)).
Proof.
  intros Ht. rewrite (middleware_resolved _ _ _ Ht). eexists; split; [done|].
  unfold middleware_decision.
  destruct (String.eqb _ _), (bool_decide _); simpl; [done..|].
  unfold url_search_params_set. rewrite url_search_params_update, usp_get_set. done.
Qed.

(** The middleware fails exactly when [getToken] does: there is no
    [try]/[catch] around the awaited call. *)
Theorem middleware_rejects_iff secret r e :
  middleware secret r = Rejected e <-> getToken r secret = Rejected e.
Proof.
  unfold middleware. destruct (getToken r secret) as [t|e'].
  - rewrite promise_bind_resolved. split; done.
  - rewrite promise_bind_rejected. split; intros Heq; injection Heq as ->; done.
Qed.

Theorem middleware_total `{!NeverRejects Claims} secret r :
  exists resp, middleware secret r = Resolved resp.
Proof.
  destruct (getToken_resolves r secret) as [t Ht].
  rewrite (middleware_resolved _ _ _ Ht). eauto.
Qed.

End GateFacts.

(** ** The pipeline: matcher, then middleware *)

Section PipelineFacts.
Context {Claims : Type} `{!SessionProvider Claims} `{!SessionProviderLaws Claims}.

Lemma run_middleware_matched secret r :
  matcher_matches (url_pathname (req_url r)) = true ->
  run_middleware secret r = middleware secret r.
Proof. unfold run_middleware. intros ->. done. Qed.

(** No redirect chains: when the gate redirects a request, the browser's
    request for the redirect target, with the same credentials, is
    served.  In particular the gate never redirects [/login] to itself
    nor bounces between [/login] and [/dashboard]. *)
Theorem run_middleware_no_redirect_chain secret r u :
  run_middleware secret r = Resolved (NextResponse_redirect u) ->
  run_middleware secret (req_at r u) = Resolved NextResponse_next.
Proof.
  unfold run_middleware at 1. destruct (matcher_matches _); [|done].
  destruct (getToken r secret) as [t|e] eqn:Ht.
  2: { intros Hr. apply (middleware_rejects_iff secret r e) in Ht. congruence. }
  rewrite (middleware_resolved _ _ _ Ht).
  assert (Ht' : getToken (req_at r u) secret = Resolved t)
    by (rewrite getToken_url_indep; done).
  unfold run_middleware, middleware_decision.
  destruct (String.eqb _ _), (bool_decide _) eqn:Ha; intros Hr; simplify_eq;
    simpl; rewrite (middleware_resolved _ _ _ Ht'); unfold middleware_decision; simpl;
    rewrite ?Ha; done.
Qed.

End PipelineFacts.

(** C5. The paths of the matcher's exclusions never reach the middleware,
    whatever the credentials: the auth endpoints, the static and image
    assets and the favicon (the [.] of [favicon.ico] being any
    non-line-terminator). *)
Theorem excluded_paths_bypass_gate {Claims} `{!SessionProvider Claims}
    secret r suffix :
  (exists alt, alt ∈ ["api/auth"; "_next/static"; "_next/image"]
               /\ url_pathname (req_url r) = String "/" (alt +:+ suffix))
  \/ (exists c, regex_dot c = true
               /\ url_pathname (req_url r) = "/favicon" +:+ String c ("ico" +:+ suffix)) ->
  run_middleware secret r = Resolved NextResponse_next.
Proof.
  unfold run_middleware. intros [(alt & Halt & ->) | (c & Hc & ->)].
  - elem_cases Halt done.
  - simpl. rewrite Hc. done.
Qed.

(** ** The gate with next-auth's [getToken] *)

Section NextAuthGate.
Context {Claims : Type} (jwt_decode : string -> string -> option Claims).

(** C6. With [NEXTAUTH_SECRET] unset every token decodes to [null], so
    the gate fails closed: no matched path other than [/login] is ever
    served. *)
Theorem gate_fails_closed_without_secret r :
  matcher_matches (url_pathname (req_url r)) = true ->
  url_pathname (req_url r) <> "/login" ->
  @run_middleware _ (nextauth_provider jwt_decode) None r <> Resolved NextResponse_next.
Proof.
  intros Hm Hl. rewrite run_middleware_matched by done.
  destruct (NextAuth.getToken_impl jwt_decode r None) as [t|e] eqn:Ht.
  - apply nextauth_getToken_no_secret in Ht as Ht0. subst t.
    rewrite (middleware_resolved (SessionProvider0 := nextauth_provider jwt_decode) _ _ _ Ht).
    unfold middleware_decision.
    destruct (String.eqb_spec (url_pathname (req_url r)) "/login"); done.
  - intros Hr. apply (middleware_rejects_iff (SessionProvider0 := nextauth_provider jwt_decode)) in Ht.
    rewrite Ht in Hr. done.
Qed.

(** C7. The pipeline can crash: for a request to a matched path with no
    session cookie and an [Authorization: Bearer <raw>] header, the
    middleware rejects with a [URIError] exactly when [raw] is not valid
    percent-encoded UTF-8, whatever the secret and the verifier, because
    next-auth's [getToken] calls [decodeURIComponent] outside its [try]
    and the middleware has no [try] either; with a decodable token it
    answers.  The specification requires that the gate never crash and
    treat any verification failure as "unauthenticated". *)
Theorem malformed_bearer_crashes_gate secret r raw :
  matcher_matches (url_pathname (req_url r)) = true ->
  default EmptyString (req_session_cookie r) = EmptyString ->
  req_authorization r = Some ("Bearer " +:+ raw) ->
  str_excludes " " raw = true ->
  match NextAuth.decode_uri_component raw with
  | None => @run_middleware _ (nextauth_provider jwt_decode) secret r
            = Rejected (URIError "URI malformed")
  | Some _ => exists resp, @run_middleware _ (nextauth_provider jwt_decode) secret r
                           = Resolved resp
  end.
Proof.
  intros Hm Hc Ha Hraw. rewrite run_middleware_matched by done.
  unfold middleware, getToken, nextauth_provider, NextAuth.getToken_impl.
  rewrite Hc, Ha. change ("Bearer " +:+ raw) with ("Bearer" +:+ String " " raw).
  change (Some ?x ≫= NextAuth.bearer_token) with (NextAuth.bearer_token x).
  replace (String.eqb "" "") with true by reflexivity.
  unfold NextAuth.bearer_token. rewrite str_split_app, str_split_no_sep by done.
  simpl. destruct (NextAuth.decode_uri_component raw) as [t|]; [|done].
  rewrite promise_bind_resolved.
  destruct (String.eqb t ""), secret; rewrite promise_bind_resolved; eauto.
Qed.

End NextAuthGate.

(** ** Witnesses *)

Lemma middleware_refines_decision_table_witness :
  exists resp,
    @middleware _ (nextauth_provider demo_decode) (Some "secret")
      (mkRequest (localhost "/login") (Some "valid") None) = Resolved resp
    /\ Spec.observe resp = Spec.RedirectTo "http://localhost:3000" "/dashboard" None.
Proof.
  exact (middleware_refines_decision_table (SessionProvider0 := nextauth_provider demo_decode)
           (Some "secret") (mkRequest (localhost "/login") (Some "valid") None) (Some tt)
           eq_refl).
Defined.

(** The prefix [api/auth] lets [/api/authors] through as well. *)
Lemma excluded_paths_bypass_gate_witness :
  @run_middleware _ (nextauth_provider demo_decode) None
    (mkRequest (localhost "/api/authors") None None) = Resolved NextResponse_next.
Proof.
  apply (excluded_paths_bypass_gate _ _ "ors"). left. exists "api/auth".
  split; [apply elem_of_cons; left; reflexivity | reflexivity].
Defined.

(** An overlong UTF-8 form of [/] ([%C0%AF]) crashes the gate. *)
Lemma malformed_bearer_crashes_gate_witness :
  @run_middleware _ (nextauth_provider demo_decode) (Some "secret")
    (mkRequest (localhost "/dashboard") None (Some "Bearer %C0%AF"))
  = Rejected (URIError "URI malformed").
Proof.
  exact (malformed_bearer_crashes_gate demo_decode (Some "secret")
           (mkRequest (localhost "/dashboard") None (Some "Bearer %C0%AF")) "%C0%AF"
           eq_refl eq_refl eq_refl eq_refl).
Defined.

Lemma gate_fails_closed_without_secret_witness :
  @run_middleware _ (nextauth_provider demo_decode) None
    (mkRequest (localhost "/dashboard") (Some "valid") None) <> Resolved NextResponse_next.
Proof. apply gate_fails_closed_without_secret; [reflexivity | discriminate]. Defined.
