(* ===== verification/Login.v ===== *)
(** * Login: the login page and the logout button

    [src/app/login/page.tsx] reads the [callbackUrl] search parameter the
    gate attached (falling back to ["/dashboard"] when it is absent or
    empty) and hands it to next-auth's [signIn("github", ...)];
    [src/components/logout-button.tsx] calls [signOut] with the login
    page as callback.  Both handlers wrap the call in [try]/[catch] and
    only log a failure.  A handler is modelled by the effects it
    performs, in order: the call to next-auth, then the console line the
    [catch] writes when the returned promise rejects.  [view] is the
    element each component renders, its button carrying the handler. *)

From S2P Require Import Prelude Url.
Import SearchParams URL.

(** The effects of a client handler. *)
Inductive ClientEffect :=
  | SignIn (provider : string) (callbackUrl : string) (redirect : bool)
  | SignOut (callbackUrl : string) (redirect : bool)
  | ConsoleError (label : string) (err : JsError).

(** [catch (error) { console.error(label, error) }] around an awaited
    call. *)
Definition log_rejection {A} (label : string) (outcome : Promise A) : list ClientEffect :=
  match outcome with
  | Resolved _ => []
  | Rejected e => [ConsoleError label e]
  end.

Module LoginPage.

(** [searchParams.get("callbackUrl") || "/dashboard"], on the URL the
    page is rendered at. *)
Definition callbackUrl (page : Url) : string :=
  usp_get "callbackUrl" (url_search_params page) ||? "/dashboard".

(** [handleLogin]: [signIn("github", { callbackUrl, redirect: true })],
    its rejection logged. *)
Definition handleLogin (page : Url) (outcome : Promise unit) : list ClientEffect :=
  SignIn "github" (callbackUrl page) true :: log_rejection "Login error:" outcome.

(** A client handler: given how the awaited call settles, the effects
    it performs. *)
Definition Handler : Type := Promise unit -> list ClientEffect.

(** The page [LoginPage] renders. *)
Definition view (page : Url) : VNode Handler :=
  VElem "div" [("className", "h-screen w-screen flex items-center justify-center bg-background")] []
    [VElem "Card" [("className", "w-[400px]")] []
       [VElem "CardHeader" [("className", "space-y-1")] []
          [VElem "CardTitle" [("className", "text-2xl")] [] [VText "Welcome back"];
           VElem "CardDescription" [] [] [VText "Sign in to your account to continue"]];
        VElem "CardContent" [] []
          [VElem "Button" [("className", "w-full"); ("variant", "outline")]
             [("onClick", handleLogin page)]
             [VElem "Github" [("className", "mr-2 h-4 w-4")] [] [];
              VText "Continue with GitHub"]];
        VElem "CardFooter" [("className", "flex justify-center text-sm text-muted-foreground")] []
          [VText "By continuing, you agree to our Terms of Service and Privacy Policy."]]].

End LoginPage.

Module LogoutButton.

(** [handleLogout]: [signOut({ callbackUrl: "/login", redirect: true })],
    its rejection logged. *)
Definition handleLogout (outcome : Promise unit) : list ClientEffect :=
  SignOut "/login" true :: log_rejection "Logout error:" outcome.

(** The element [LogoutButton] renders: an icon button with a tooltip. *)
Definition view : VNode LoginPage.Handler :=
  VElem "Tooltip" [] []
    [VElem "TooltipTrigger" [("asChild", "true")] []
       [VElem "Button" [("variant", "ghost"); ("size", "icon"); ("className", "h-9 w-9")]
          [("onClick", handleLogout)]
          [VElem "LogOut" [("className", "h-4 w-4")] [] [];
           VElem "span" [("className", "sr-only")] [] [VText "Logout"]]];
     VElem "TooltipContent" [] [] [VElem "p" [] [] [VText "Logout"]]].

End LogoutButton.

(** ** Facts *)

Section LoginFacts.

Lemma callbackUrl_default page :
  usp_get "callbackUrl" (url_search_params page) = None ->
  LoginPage.callbackUrl page = "/dashboard".
Proof. unfold LoginPage.callbackUrl. intros ->. done. Qed.

(** The page the gate redirects to gives back, as [callbackUrl], the
    URL the gate stored, when that URL is not empty. *)
Lemma callbackUrl_of_gate_redirect (orig : string) (base : Url) :
  orig <> EmptyString ->
  LoginPage.callbackUrl
    (url_search_params_set "callbackUrl" orig (new_URL_path "/login" base)) = orig.
Proof.
  intros Hne. unfold LoginPage.callbackUrl, url_search_params_set.
  rewrite url_search_params_update, usp_get_set. apply js_or_default_nonempty, Hne.
Qed.

End LoginFacts.
