(* ===== verification/Header.v ===== *)
(** * Header: the breadcrumbs of [src/components/app-header.tsx]

    [AppHeader] splits the current pathname on [/], drops the empty
    segments, and maps each segment, with its index, to a breadcrumb: its
    title (first character upper-cased), the href of the path up to it,
    and whether it is the last one.  The list renders one element per
    breadcrumb, keyed by its href, with a chevron before every breadcrumb
    but the first, a link for every breadcrumb but the last, and plain
    text for the last.  [breadcrumbs] follows the code's indexed map and
    [slice]/[join]; [crumbs_from] computes the same list by carrying the
    href of the previous breadcrumb, and the theorems show that the two
    agree and what the rendered list guarantees. *)

From S2P Require Import Prelude Url Login.

Module AppHeader.

Record Crumb := mkCrumb {
  title : string;
  href : string;
  isLast : bool
}.

(** [path.charAt(0).toUpperCase() + path.slice(1)]. *)
Definition capitalize (path : string) : string :=
  match path with
  | EmptyString => EmptyString
  | String c rest => String (ascii_to_upper c) rest
  end.

(** [pathname.split('/').filter(Boolean)]. *)
Definition path_segments (pathname : string) : list string :=
  filter (fun p => p <> EmptyString) (str_split "/" pathname).

(** [paths.map((path, index) => ...)]. *)
Definition breadcrumbs (pathname : string) : list Crumb :=
  let paths := path_segments pathname in
  imap (fun index path =>
          mkCrumb (capitalize path)
                  (String "/" (str_join "/" (take (S index) paths)))
                  (Nat.eqb index (length paths - 1)))
       paths.

(** What [breadcrumbs.map] renders for one breadcrumb. *)
Record RenderedCrumb := mkRendered {
  r_key : string;
  r_chevron : bool;
  r_link : option string;
  r_label : string
}.

Definition render_crumb (index : nat) (b : Crumb) : RenderedCrumb :=
  mkRendered (href b) (0 <? index) (if isLast b then None else Some (href b)) (title b).

Definition render_breadcrumbs (pathname : string) : list RenderedCrumb :=
  imap render_crumb (breadcrumbs pathname).

(** The same breadcrumbs, each href extending the previous one. *)
Fixpoint crumbs_from (prefix : string) (paths : list string) : list Crumb :=
  match paths with
  | [] => []
  | p :: rest =>
      let h := prefix +:+ String "/" p in
      mkCrumb (capitalize p) h (match rest with [] => true | _ => false end)
        :: crumbs_from h rest
  end.

(** The href of a crumb as the concatenation of ["/" + segment]. *)
Definition slash_join (l : list string) : string :=
  foldr (fun p acc => String "/" p +:+ acc) EmptyString l.

(** The element of one breadcrumb, as [breadcrumbs.map] renders it. *)
Definition crumb_node (r : RenderedCrumb) : VNode LoginPage.Handler :=
  VElem "div" [("key", r_key r); ("className", "flex items-center")] []
    ((if r_chevron r
      then [VElem "ChevronRight" [("className", "h-4 w-4 text-muted-foreground mx-1")] [] []]
      else [])
     ++ [VElem "span"
           [("className", "flex items-center " +:+
               match r_link r with
               | None => "text-foreground font-medium"
               | Some _ => "text-muted-foreground hover:text-foreground"
               end)] []
           [match r_link r with
            | Some h => VElem "a" [("href", h); ("className", "hover:underline")] [] [VText (r_label r)]
            | None => VText (r_label r)
            end]]).

(** What [AppHeader] renders on [pathname]: the sidebar trigger (its
    toggle is the sidebar library's own), the breadcrumbs and the logout
    button. *)
Definition view (pathname : string) : VNode LoginPage.Handler :=
  VElem "Fragment" [] []
    [VElem "header" [("className", "sticky top-0 z-10 flex h-16 shrink-0 items-center gap-2 bg-background/80 backdrop-blur-sm border-b transition-[width,height] ease-linear group-has-[[data-collapsible=icon]]/sidebar-wrapper:h-12")] []
       [VElem "div" [("className", "flex items-center justify-between gap-2 px-4 w-full")] []
          [VElem "div" [("className", "flex items-center gap-2")] []
             [VElem "SidebarTrigger" [("className", "-ml-1")] [] [];
              VElem "Separator" [("orientation", "vertical"); ("className", "mr-2 h-4")] [] [];
              VElem "Breadcrumb" [] []
                [VElem "BreadcrumbList" [("className", "flex items-center space-x-1")] []
                   (map crumb_node (render_breadcrumbs pathname))]];
           LogoutButton.view]];
     VElem "div" [("className", "h-6")] [] []].

End AppHeader.

(** ** Facts *)

Section HeaderFacts.
Import AppHeader.

Lemma slash_join_spec l :
  l <> [] -> String "/" (str_join "/" l) = slash_join l.
Proof.
  unfold str_join. induction l as [|p l IH]; [done|]. intros _.
  destruct l as [|q l].
  - simpl. rewrite str_app_nil_r. done.
  - change (slash_join (p :: q :: l)) with (String "/" p +:+ slash_join (q :: l)).
    rewrite <- IH by done. reflexivity.
Qed.

Lemma crumbs_from_spec prefix paths :
  crumbs_from prefix paths =
  imap (fun i p => mkCrumb (capitalize p) (prefix +:+ slash_join (take (S i) paths))
                           (Nat.eqb i (length paths - 1))) paths.
Proof.
  revert prefix. induction paths as [|p rest IH]; intros prefix; [done|].
  simpl crumbs_from. rewrite imap_cons. f_equal.
  - simpl. rewrite str_app_nil_r. destruct rest; done.
  - rewrite IH. apply imap_ext. intros i x Hx.
    pose proof (lookup_lt_Some _ _ _ Hx).
    unfold compose. cbn [take slash_join foldr length].
    rewrite <- str_app_assoc. f_equal.
    destruct (Nat.eqb_spec i (length rest - 1)),
             (Nat.eqb_spec (S i) (S (length rest) - 1)); done || lia.
Qed.

(** The code's indexed [map] with [slice(0, index + 1).join('/')]
    builds the same breadcrumbs as extending the previous href by one
    segment. *)
Lemma breadcrumbs_crumbs_from pathname :
  breadcrumbs pathname = crumbs_from EmptyString (path_segments pathname).
Proof.
  unfold breadcrumbs. rewrite crumbs_from_spec. apply imap_ext.
  intros i x Hx. simpl. rewrite slash_join_spec; [done|].
  destruct (path_segments pathname); done.
Qed.

Lemma crumbs_from_hrefs prefix paths :
  Forall (fun h => String.length prefix < String.length h) (map href (crumbs_from prefix paths)) /\
  NoDup (map href (crumbs_from prefix paths)).
Proof.
  revert prefix. induction paths as [|p rest IH]; intros prefix; simpl.
  - split; constructor.
  - destruct (IH (prefix +:+ String "/" p)) as [Hlt Hnd].
    rewrite str_length_app in Hlt. simpl in Hlt.
    split.
    + constructor; [rewrite str_length_app; simpl; lia|].
      eapply Forall_impl; [exact Hlt|]. simpl. lia.
    + constructor; [|done]. intros Hin.
      eapply Forall_forall in Hlt; [|exact Hin]. rewrite str_length_app in Hlt. simpl in Hlt. lia.
Qed.

Lemma map_imap {A B C} (f : nat -> A -> B) (g : B -> C) (h : A -> C) l :
  (forall i x, g (f i x) = h x) -> map g (imap f l) = map h l.
Proof.
  revert f. induction l as [|x l IH]; intros f Hf; [done|].
  simpl. rewrite Hf. f_equal. apply IH. intros. apply Hf.
Qed.

Lemma crumbs_from_last prefix paths :
  paths <> [] ->
  last (crumbs_from prefix paths) =
  Some (mkCrumb (capitalize (default EmptyString (last paths)))
                (prefix +:+ slash_join paths) true).
Proof.
  revert prefix. induction paths as [|p rest IH]; intros prefix Hne; [done|].
  destruct rest as [|q rest].
  - simpl. rewrite str_app_nil_r. done.
  - change (crumbs_from prefix (p :: q :: rest))
      with (mkCrumb (capitalize p) (prefix +:+ String "/" p) false
              :: crumbs_from (prefix +:+ String "/" p) (q :: rest)).
    rewrite last_cons, IH by done. simpl. rewrite <- str_app_assoc. done.
Qed.

Lemma path_segments_join segs :
  segs <> [] ->
  Forall (fun s => s <> EmptyString /\ str_excludes "/" s = true) segs ->
  path_segments (String "/" (str_join "/" segs)) = segs.
Proof.
  intros Hne Hall. unfold path_segments.
  change (String "/" (str_join "/" segs)) with (EmptyString +:+ String "/" (str_join "/" segs)).
  rewrite str_split_app by done. rewrite str_split_join; [|done|].
  - rewrite filter_cons_False by (intros []; done). apply filter_Forall_id.
    eapply Forall_impl; [exact Hall|]. intros ? []; done.
  - eapply Forall_impl; [exact Hall|]. intros ? []; done.
Qed.

(** C21. The React keys of the breadcrumb list, the hrefs, are pairwise
    distinct for every pathname: each href is longer than the one
    before it. *)
Theorem breadcrumb_keys_unique pathname :
  NoDup (map r_key (render_breadcrumbs pathname)).
Proof.
  unfold render_breadcrumbs. rewrite (map_imap _ _ href) by done.
  rewrite breadcrumbs_crumbs_from. apply crumbs_from_hrefs.
Qed.

(** C22. Every breadcrumb but the first is preceded by a chevron, and
    every breadcrumb but the last is a link to its own href; the last
    one is plain text. *)
Theorem breadcrumb_render_shape pathname i r :
  render_breadcrumbs pathname !! i = Some r ->
  r_chevron r = bool_decide (0 < i) /\
  r_link r = (if bool_decide (S i = length (render_breadcrumbs pathname))
              then None else Some (r_key r)).
Proof.
  unfold render_breadcrumbs. rewrite length_imap.
  intros (b & Hb & ->)%list_lookup_imap_Some.
  pose proof (lookup_lt_Some _ _ _ Hb) as Hlt.
  unfold breadcrumbs in Hb, Hlt. rewrite length_imap in Hlt.
  apply list_lookup_imap_Some in Hb as (y & Hy & ->).
  unfold breadcrumbs. rewrite length_imap. simpl. split.
  - destruct (Nat.ltb_spec 0 i); case_bool_decide; done || lia.
  - destruct (Nat.eqb_spec i (length (path_segments pathname) - 1));
      case_bool_decide; done || lia.
Qed.

(** C23. On a canonical pathname (a leading slash, then non-empty
    segments without a slash), the last breadcrumb is the current page:
    its href is the pathname itself and it is marked last. *)
Theorem last_breadcrumb_is_current_page segs :
  segs <> [] ->
  Forall (fun s => s <> EmptyString /\ str_excludes "/" s = true) segs ->
  last (breadcrumbs (String "/" (str_join "/" segs))) =
  Some (mkCrumb (capitalize (default EmptyString (last segs)))
                (String "/" (str_join "/" segs)) true).
Proof.
  intros Hne Hall.
  rewrite breadcrumbs_crumbs_from, path_segments_join, crumbs_from_last by done.
  rewrite slash_join_spec by done. done.
Qed.

(** *** The rendered header *)

Lemma crumb_node_handlers ev r : vhandlers ev (crumb_node r) = [].
Proof. destruct r as [k c [h|] l]; destruct c; done. Qed.

Lemma crumb_node_links r :
  vlinks (crumb_node r) = match r_link r with Some h => [h] | None => [] end.
Proof. destruct r as [k c [h|] l]; destruct c; done. Qed.

Lemma crumbs_handlers ev l : flat_map (vhandlers ev) (map crumb_node l) = [].
Proof. apply vhandlers_map_nil, crumb_node_handlers. Qed.

Lemma crumbs_links l :
  flat_map vlinks (map crumb_node l) = omap r_link l.
Proof.
  induction l as [|r l IH]; [done|]. cbn [map flat_map]. rewrite crumb_node_links, IH.
  simpl. destruct (r_link r); done.
Qed.

(** Every breadcrumb but the last links to its href. *)
Lemma crumbs_from_links prefix paths :
  omap (fun b => if isLast b then None else Some (href b)) (crumbs_from prefix paths)
  = removelast (map href (crumbs_from prefix paths)).
Proof.
  revert prefix. induction paths as [|p rest IH]; intros prefix; [done|].
  destruct rest as [|q rest]; [done|].
  change (crumbs_from prefix (p :: q :: rest))
    with (mkCrumb (capitalize p) (prefix +:+ String "/" p) false
            :: crumbs_from (prefix +:+ String "/" p) (q :: rest)).
  cbn [omap list_omap map isLast href].
  rewrite IH. done.
Qed.

Lemma omap_imap {A B C} (f : nat -> A -> B) (g : B -> option C) (h : A -> option C) l :
  (forall i x, g (f i x) = h x) -> omap g (imap f l) = omap h l.
Proof.
  revert f. induction l as [|x l IH]; intros f Hf; [done|].
  rewrite imap_cons, !omap_cons_eq, Hf, (IH (f ∘ S)) by (intros; apply Hf). done.
Qed.

Lemma render_breadcrumbs_links pathname :
  omap r_link (render_breadcrumbs pathname) = removelast (map href (breadcrumbs pathname)).
Proof.
  unfold render_breadcrumbs.
  rewrite (omap_imap _ _ (fun b => if isLast b then None else Some (href b))) by done.
  rewrite breadcrumbs_crumbs_from. apply crumbs_from_links.
Qed.

(** The header's handlers for any event: only the logout button's click. *)
Lemma view_handlers ev pathname :
  vhandlers ev (view pathname) =
    if String.eqb ev "onClick" then [("Logout", LogoutButton.handleLogout)] else [].
Proof. unfold view. simpl. rewrite crumbs_handlers. destruct (String.eqb ev "onClick"); done. Qed.

Lemma view_links pathname :
  vlinks (view pathname) = removelast (map href (breadcrumbs pathname)).
Proof. unfold view. simpl. rewrite crumbs_links, render_breadcrumbs_links, !app_nil_r. done. Qed.

(** C28. On every page, the only handler the header renders is the
    logout button's, and its links are the breadcrumbs of every path
    segment but the current one, in order. *)
Theorem header_actions pathname :
  vhandlers "onClick" (view pathname) = [("Logout", LogoutButton.handleLogout)] /\
  vlinks (view pathname) = removelast (map href (breadcrumbs pathname)).
Proof. split; [apply (view_handlers "onClick") | apply view_links]. Qed.

End HeaderFacts.

(** ** Witnesses *)

Import AppHeader.

Lemma breadcrumb_render_shape_witness :
  render_breadcrumbs "/dashboard/reports" !! 1 =
    Some (mkRendered "/dashboard/reports" true None "Reports") /\
  r_chevron (mkRendered "/dashboard/reports" true None "Reports") = bool_decide (0 < 1) /\
  r_link (mkRendered "/dashboard/reports" true None "Reports") =
    (if bool_decide (S 1 = length (render_breadcrumbs "/dashboard/reports"))
     then None else Some (r_key (mkRendered "/dashboard/reports" true None "Reports"))).
Proof.
  assert (H : render_breadcrumbs "/dashboard/reports" !! 1 =
                Some (mkRendered "/dashboard/reports" true None "Reports"))
    by (vm_compute; reflexivity).
  split; [exact H|]. exact (breadcrumb_render_shape _ _ _ H).
Defined.

Lemma last_breadcrumb_is_current_page_witness :
  last (breadcrumbs "/dashboard/reports") =
  Some (mkCrumb "Reports" "/dashboard/reports" true).
Proof.
  exact (last_breadcrumb_is_current_page ["dashboard"; "reports"]
           ltac:(done) ltac:(repeat constructor; done || vm_compute; reflexivity)).
Defined.
