(* ===== verification/Flow.v ===== *)
(** * Flow: a browser session through the gate, the login page and next-auth

    The components of [src/] interact through the browser: the gate's
    redirects are followed by the browser, the login page's [signIn] and
    the header's [signOut] make next-auth set or clear the session cookie
    and send the browser to a callback URL, which the gate sees again.
    This file composes them: [browse] follows redirects through
    [run_middleware] up to the browser's limit, [nextauth_redirect] is
    next-auth's default [redirect] callback (which only lets a callback
    URL of the application's own origin through), and [step] runs one
    user action.  A click runs the [onClick] that the served page renders
    on the clicked element ([rendered_controls]: the login card of
    [LoginPage.view] on [/login], the [AppHeader.view] of the pages that
    render the header), and the effects of that handler are interpreted
    as next-auth's client does: [signOut] navigates only with [redirect:
    true].  The browser and next-auth's endpoints are not code of the
    repository; they are modelled from their documented behaviour. *)

From S2P Require Import Prelude Url Session Gate Login Header.
Import SearchParams URL Matcher.

(** What the tab shows. *)
Inductive View :=
  | Served (page : Url)
  | ServerError (e : JsError)
  | TooManyRedirects
  | InvalidUrl
  | Blank.

Record Browser := mkBrowser {
  b_cookie : option string;
  b_view : View;
  b_console : list ClientEffect
}.

(** Browsers give up after 20 redirects. *)
Definition max_redirects : nat := 20.

(** A user action: open a URL, click the element showing "Continue with
    GitHub" (next-auth's sign-in settles with the session token it
    issues, or rejects), click the element showing "Logout" (next-auth's
    sign-out settles or rejects).  A click runs the [onClick] the page
    renders on that element, if any. *)
Inductive Action :=
  | Visit (u : Url)
  | ClickContinueWithGitHub (outcome : Promise string)
  | ClickLogout (outcome : Promise unit).

(** The pages that render [AppHeader], hence the logout button. *)
Definition renders_app_header (page : Url) : bool :=
  String.eqb (url_pathname page) "/dashboard" || String.eqb (url_pathname page) "/chat".

(** The click handlers a served page renders, by the text of the element
    that carries them: the login card on [/login], the header on the
    pages that render [AppHeader]. *)
Definition rendered_controls (page : Url) : list (string * LoginPage.Handler) :=
  if String.eqb (url_pathname page) "/login" then vhandlers "onClick" (LoginPage.view page)
  else if renders_app_header page then vhandlers "onClick" (AppHeader.view (url_pathname page))
  else [].

Definition promise_unit {A} (p : Promise A) : Promise unit :=
  match p with Resolved _ => Resolved tt | Rejected e => Rejected e end.

Section Browsing.
Context {Claims : Type} `{!SessionProvider Claims}.

(** [NEXTAUTH_SECRET] and [NEXTAUTH_URL] (the application's origin). *)
Variable secret : option string.
Variable NEXTAUTH_URL : string.

(** Send [r], following redirects with the same credentials. *)
Fixpoint browse (fuel : nat) (r : Request) : View :=
  match fuel with
  | 0 => TooManyRedirects
  | S n =>
      match run_middleware secret r with
      | Rejected e => ServerError e
      | Resolved NextResponse_next => Served (req_url r)
      | Resolved (NextResponse_redirect u) => browse n (req_at r u)
      end
  end.

(** [window.location.href = target]. *)
Definition navigate (cookie : option string) (target : string) : View :=
  match parse_absolute_url target with
  | Some u => browse max_redirects (mkRequest u cookie None)
  | None => InvalidUrl
  end.

(** next-auth's default [redirect({ url, baseUrl })] callback: a
    relative URL is put on the application's origin, an absolute URL of
    that origin is kept, anything else becomes the origin itself. *)
Definition nextauth_redirect (url : string) : string :=
  if str_starts_with "/" url then NEXTAUTH_URL +:+ url
  else match parse_absolute_url url with
       | Some v => if String.eqb (url_origin v) NEXTAUTH_URL then url else NEXTAUTH_URL
       | None => NEXTAUTH_URL
       end.

(** next-auth's client [signIn] returns instead of navigating only for
    the providers that support it (credentials and email); an OAuth
    provider always navigates. *)
Definition signin_supports_return (provider : string) : bool :=
  String.eqb provider "credentials" || String.eqb provider "email".

(** One effect of a handler, given how next-auth's call settled
    ([Some token] when a session was issued).  [signOut] clears the
    session, then navigates to the callback URL when [redirect] is true
    and otherwise leaves the tab where it is. *)
Definition run_effect (outcome : Promise (option string)) (b : Browser)
    (eff : ClientEffect) : Browser :=
  match eff, outcome with
  | SignIn provider cb redirect, Resolved (Some tok) =>
      if redirect || negb (signin_supports_return provider)
      then mkBrowser (Some tok) (navigate (Some tok) (nextauth_redirect cb)) (b_console b)
      else mkBrowser (Some tok) (b_view b) (b_console b)
  | SignOut cb redirect, Resolved _ =>
      if redirect then mkBrowser None (navigate None (nextauth_redirect cb)) (b_console b)
      else mkBrowser None (b_view b) (b_console b)
  | ConsoleError _ _, _ => mkBrowser (b_cookie b) (b_view b) (b_console b ++ [eff])
  | _, _ => b
  end.

Definition run_handler (outcome : Promise (option string)) (effs : list ClientEffect)
    (b : Browser) : Browser :=
  fold_left (run_effect outcome) effs b.

(** The effects after which the tab is where next-auth sent it. *)
Definition effect_navigates (eff : ClientEffect) : bool :=
  match eff with
  | SignIn provider _ redirect => redirect || negb (signin_supports_return provider)
  | SignOut _ redirect => redirect
  | ConsoleError _ _ => true
  end.

Definition step (b : Browser) (a : Action) : Browser :=
  match a with
  | Visit u =>
      mkBrowser (b_cookie b) (browse max_redirects (mkRequest u (b_cookie b) None)) (b_console b)
  | ClickContinueWithGitHub o =>
      match b_view b with
      | Served page =>
          match assoc_str "Continue with GitHub" (rendered_controls page) with
          | Some h => run_handler (match o with Resolved t => Resolved (Some t) | Rejected e => Rejected e end)
                        (h (promise_unit o)) b
          | None => b
          end
      | _ => b
      end
  | ClickLogout o =>
      match b_view b with
      | Served page =>
          match assoc_str "Logout" (rendered_controls page) with
          | Some h => run_handler (match o with Resolved _ => Resolved None | Rejected e => Rejected e end)
                        (h o) b
          | None => b
          end
      | _ => b
      end
  end.

Definition run_actions (acts : list Action) (b : Browser) : Browser :=
  fold_left step acts b.

(** What the tab may show: a matched protected page only with a session
    the provider accepts. *)
Definition session_inv (b : Browser) : Prop :=
  forall v, b_view b = Served v ->
    matcher_matches (url_pathname v) = true -> url_pathname v <> "/login" ->
    exists c, getToken (mkRequest v (b_cookie b) None) secret = Resolved (Some c).

(** The login URL the gate builds for a protected URL (lines 25-26 of
    [src/middleware.ts]). *)
Definition gate_login_url (u : Url) : Url :=
  url_search_params_set "callbackUrl" (url_href u) (new_URL_path "/login" u).

End Browsing.

(** ** What a served page tells about the request that fetched it *)

Section BrowseFacts.
Context {Claims : Type} `{!SessionProvider Claims}.
Variable secret : option string.
Variable NEXTAUTH_URL : string.

(** A served page was fetched by a request with the same credentials and
    the same origin as the first one, which the pipeline let through. *)
Lemma browse_served_inv n r v :
  browse secret n r = Served v ->
  exists r', req_url r' = v
    /\ req_session_cookie r' = req_session_cookie r
    /\ req_authorization r' = req_authorization r
    /\ url_scheme v = url_scheme (req_url r) /\ url_host v = url_host (req_url r)
    /\ run_middleware secret r' = Resolved NextResponse_next.
Proof.
  revert r. induction n as [|n IH]; intros r; simpl; [done|].
  destruct (run_middleware secret r) as [[|u]|e] eqn:Hr; intros Hb; simplify_eq.
  - exists r. done.
  - destruct (IH _ Hb) as (r' & <- & Hc & Ha & Hs & Hh & Hn). exists r'.
    unfold run_middleware in Hr. destruct (matcher_matches _); [|done].
    destruct (getToken r secret) as [t|e] eqn:Ht.
    2: { apply (middleware_rejects_iff secret r e) in Ht. congruence. }
    rewrite (middleware_resolved _ _ _ Ht) in Hr. unfold middleware_decision in *.
    simpl in *. rewrite Hs, Hh.
    destruct (String.eqb _ _), (bool_decide _); simplify_eq; done.
Qed.

(** The pipeline serves a matched protected path only to a request whose
    token the provider accepts. *)
Lemma run_middleware_next_protected r :
  run_middleware secret r = Resolved NextResponse_next ->
  matcher_matches (url_pathname (req_url r)) = true ->
  url_pathname (req_url r) <> "/login" ->
  exists c, getToken r secret = Resolved (Some c).
Proof.
  intros Hr Hm Hl. rewrite run_middleware_matched in Hr by done.
  destruct (getToken r secret) as [[c|]|e] eqn:Ht; [eauto| |].
  - rewrite (middleware_resolved _ _ _ Ht) in Hr. unfold middleware_decision in *.
    destruct (String.eqb_spec (url_pathname (req_url r)) "/login"); done.
  - apply (middleware_rejects_iff secret r e) in Ht. congruence.
Qed.

Lemma browse_session_inv n cookie u console :
  session_inv secret (mkBrowser cookie (browse secret n (mkRequest u cookie None)) console).
Proof.
  intros v Hv Hm Hl. simpl in Hv.
  destruct (browse_served_inv _ _ _ Hv) as ([u' c' a'] & Hu & Hc & Ha & _ & _ & Hn).
  simpl in *. subst.
  destruct (run_middleware_next_protected _ Hn Hm Hl) as [c Hc]. eauto.
Qed.

Lemma navigate_session_inv cookie target console :
  session_inv secret (mkBrowser cookie (navigate secret cookie target) console).
Proof.
  unfold navigate. destruct (parse_absolute_url target); [apply browse_session_inv|done].
Qed.

Lemma log_rejection_navigates {A} label (o : Promise A) :
  Forall (fun eff => effect_navigates eff = true) (log_rejection label o).
Proof. destruct o; repeat constructor. Qed.

Lemma login_controls page :
  url_pathname page = "/login" ->
  assoc_str "Continue with GitHub" (rendered_controls page) = Some (LoginPage.handleLogin page).
Proof. intros Hl. unfold rendered_controls. rewrite Hl. reflexivity. Qed.

Lemma header_controls page :
  renders_app_header page = true ->
  assoc_str "Logout" (rendered_controls page) = Some LogoutButton.handleLogout.
Proof.
  intros Hh. unfold rendered_controls. rewrite Hh, view_handlers.
  destruct (String.eqb_spec (url_pathname page) "/login") as [Hl|]; [|done].
  unfold renders_app_header in Hh. rewrite Hl in Hh. done.
Qed.

(** Every handler a page renders calls next-auth with navigation on. *)
Lemma rendered_controls_navigate page label h o :
  assoc_str label (rendered_controls page) = Some h ->
  Forall (fun eff => effect_navigates eff = true) (h o).
Proof.
  unfold rendered_controls. destruct (String.eqb _ "/login").
  - simpl. destruct (String.eqb label _); [|done]. intros [= <-].
    constructor; [done|apply log_rejection_navigates].
  - rewrite view_handlers. destruct (renders_app_header page); simpl; [|done].
    destruct (String.eqb label _); [|done]. intros [= <-].
    constructor; [done|apply log_rejection_navigates].
Qed.

(** A handler keeps the invariant when each of its next-auth calls
    navigates: a [signOut] with [redirect: false] would leave the
    protected page on screen without a session. *)
Lemma run_handler_session_inv o effs b :
  Forall (fun eff => effect_navigates eff = true) effs ->
  session_inv secret b -> session_inv secret (run_handler secret NEXTAUTH_URL o effs b).
Proof.
  unfold run_handler. revert b. induction effs as [|eff effs IH]; intros b Hnav Hb; simpl; [done|].
  inversion Hnav as [|? ? Heff Hrest]; subst. apply IH; [done|].
  destruct eff, o as [[tok|]|e]; simpl in *; rewrite ?Heff; try done; apply navigate_session_inv.
Qed.


Lemma step_session_inv b a : session_inv secret b -> session_inv secret (step secret NEXTAUTH_URL b a).
Proof.
  intros Hb. destruct a as [u|o|o]; unfold step.
  - apply browse_session_inv.
  - destruct (b_view b) as [page| | | |]; try done.
    destruct (assoc_str _ _) as [h|] eqn:Hh; [|done].
    apply run_handler_session_inv; [eapply rendered_controls_navigate, Hh | apply Hb].
  - destruct (b_view b) as [page| | | |]; try done.
    destruct (assoc_str _ _) as [h|] eqn:Hh; [|done].
    apply run_handler_session_inv; [eapply rendered_controls_navigate, Hh | apply Hb].
Qed.

(** C2. Whatever the user does, starting from a blank tab, the tab
    shows a page the gate protects only while the browser holds a
    session cookie the provider accepts: logging out, failed sign-ins,
    redirects and direct visits never leave a protected page on screen
    without a session.  Clicks run the handlers the pages render, and
    the invariant holds because each of them calls next-auth with
    navigation on ([signOut] with [redirect: true]). *)
Theorem protected_page_requires_session acts cookie console :
  session_inv secret (run_actions secret NEXTAUTH_URL acts (mkBrowser cookie Blank console)).
Proof.
  unfold run_actions.
  enough (forall b, session_inv secret b -> session_inv secret (fold_left (step secret NEXTAUTH_URL) acts b))
    by (apply H; done).
  induction acts as [|a acts IH]; intros b Hb; simpl; [done|].
  apply IH, step_session_inv, Hb.
Qed.

End BrowseFacts.

(** ** Following redirects terminates *)

Section Termination.
Context {Claims : Type} `{!SessionProvider Claims} `{!SessionProviderLaws Claims}.
Variable secret : option string.

(** C4. For any provider whose answer does not depend on the URL,
    following the gate's redirects settles after at most one redirect:
    two requests give the final view, more fuel changes nothing, and the
    browser's limit of [max_redirects] redirects is never reached. *)
Theorem browse_settles_within_one_redirect n r :
  browse secret (2 + n) r = browse secret 2 r
  /\ browse secret max_redirects r <> TooManyRedirects.
Proof.
  assert (H2 : forall m, browse secret (2 + m) r = browse secret 2 r).
  { intros m. simpl.
    destruct (run_middleware secret r) as [[|u]|e] eqn:Hr; [done| |done].
    rewrite (run_middleware_no_redirect_chain _ _ _ Hr). done. }
  split; [apply H2|].
  change max_redirects with (2 + 18). rewrite H2. simpl.
  destruct (run_middleware secret r) as [[|u]|e] eqn:Hr; [done| |done].
  rewrite (run_middleware_no_redirect_chain _ _ _ Hr). done.
Qed.

End Termination.

(** ** Logging in brings the user back to the page they asked for *)

Section LoginFlow.
Context {Claims : Type} `{!SessionProvider Claims}.
Variable secret : option string.
Variable NEXTAUTH_URL : string.

Lemma browse_anonymous_protected u n :
  matcher_matches (url_pathname u) = true -> url_pathname u <> "/login" ->
  (forall v, getToken (mkRequest v None None) secret = Resolved None) ->
  browse secret (2 + n) (mkRequest u None None) = Served (gate_login_url u).
Proof.
  intros Hm Hl Hanon. cbn [browse Nat.add].
  rewrite run_middleware_matched by done.
  rewrite (middleware_resolved _ _ _ (Hanon u)). unfold middleware_decision in *. cbn [req_url].
  destruct (String.eqb_spec (url_pathname u) "/login") as [|_]; [done|].
  rewrite bool_decide_is_Some_None. cbn [negb].
  rewrite run_middleware_matched by reflexivity.
  unfold req_at. cbn [req_session_cookie req_authorization].
  rewrite (middleware_resolved _ _ _ (Hanon _)). unfold middleware_decision in *. cbn [req_url].
  reflexivity.
Qed.

Lemma browse_authenticated_protected u cookie c n :
  matcher_matches (url_pathname u) = true -> url_pathname u <> "/login" ->
  getToken (mkRequest u cookie None) secret = Resolved (Some c) ->
  browse secret (S n) (mkRequest u cookie None) = Served u.
Proof.
  intros Hm Hl Hc. cbn [browse].
  rewrite run_middleware_matched by done.
  rewrite (middleware_resolved _ _ _ Hc). unfold middleware_decision in *. cbn [req_url].
  destruct (String.eqb_spec (url_pathname u) "/login") as [|_]; [done|]. reflexivity.
Qed.

Lemma nextauth_redirect_same_origin u :
  url_wf u = true -> url_origin u = NEXTAUTH_URL ->
  nextauth_redirect NEXTAUTH_URL (url_href u) = url_href u.
Proof.
  intros Hwf Ho. unfold nextauth_redirect.
  destruct (url_href_wf_absolute u Hwf) as [-> _].
  rewrite parse_absolute_url_href by done. rewrite Ho, String.eqb_refl. done.
Qed.

(** C3. The login round trip: an anonymous user who opens a protected
    URL [u] of the application's origin is shown the login page; when
    they continue with GitHub and next-auth issues a session the
    provider accepts, the tab ends on [u] itself, with the session
    cookie set and nothing logged.  The URL survives the trip through
    the [callbackUrl] parameter, the login page's [get], next-auth's
    [redirect] callback and the URL parser. *)
Theorem login_flow_returns_to_requested_page u tok c console :
  url_wf u = true -> matcher_matches (url_pathname u) = true ->
  url_pathname u <> "/login" -> url_origin u = NEXTAUTH_URL ->
  (forall v, getToken (mkRequest v None None) secret = Resolved None) ->
  (forall v, getToken (mkRequest v (Some tok) None) secret = Resolved (Some c)) ->
  run_actions secret NEXTAUTH_URL [Visit u; ClickContinueWithGitHub (Resolved tok)]
    (mkBrowser None Blank console)
  = mkBrowser (Some tok) (Served u) console.
Proof.
  intros Hwf Hm Hl Ho Hanon Htok. unfold run_actions. cbn [fold_left].
  assert (step secret NEXTAUTH_URL (mkBrowser None Blank console) (Visit u)
          = mkBrowser None (Served (gate_login_url u)) console) as ->.
  { unfold step. cbn [b_cookie b_console]. change max_redirects with (2 + 18).
    rewrite browse_anonymous_protected by done. done. }
  unfold step. cbn [b_view]. rewrite login_controls by reflexivity.
  unfold run_handler, LoginPage.handleLogin. cbn [fold_left log_rejection promise_unit run_effect].
  destruct (url_href_wf_absolute u Hwf) as [_ Hne].
  unfold gate_login_url. rewrite callbackUrl_of_gate_redirect by done.
  rewrite nextauth_redirect_same_origin by done.
  unfold navigate. rewrite parse_absolute_url_href by done.
  change max_redirects with (S 19).
  rewrite browse_authenticated_protected with (c := c) by done. done.
Qed.
End LoginFlow.

(** ** Logging out, failed sign-ins, and where sign-in may lead *)

Section SessionEnd.
Context {Claims : Type} `{!SessionProvider Claims}.
Variable secret : option string.
Variable NEXTAUTH_URL : string.

Lemma browse_anonymous_login L n :
  url_pathname L = "/login" ->
  (forall v, getToken (mkRequest v None None) secret = Resolved None) ->
  browse secret (S n) (mkRequest L None None) = Served L.
Proof.
  intros Hl Hanon. cbn [browse].
  rewrite run_middleware_matched by (cbn [req_url]; rewrite Hl; reflexivity).
  rewrite (middleware_resolved _ _ _ (Hanon L)). unfold middleware_decision in *. cbn [req_url]. rewrite Hl. reflexivity.
Qed.

(** C8. The logout button, on a page that renders the header: when
    next-auth's sign-out settles, the cookie is gone and the tab shows
    the login page of the application's origin, served to an anonymous
    user; when it rejects, the session and the page stay as they were and
    the failure is logged as ["Logout error:"]. *)
Theorem logout_outcomes b page L e :
  b_view b = Served page -> renders_app_header page = true ->
  parse_absolute_url (NEXTAUTH_URL +:+ "/login") = Some L -> url_pathname L = "/login" ->
  (forall v, getToken (mkRequest v None None) secret = Resolved None) ->
  step secret NEXTAUTH_URL b (ClickLogout (Resolved tt)) = mkBrowser None (Served L) (b_console b)
  /\ step secret NEXTAUTH_URL b (ClickLogout (Rejected e))
     = mkBrowser (b_cookie b) (b_view b) (b_console b ++ [ConsoleError "Logout error:" e]).
Proof.
  intros Hv Hh HL Hl Hanon. unfold step. rewrite Hv, header_controls by done.
  unfold run_handler, LogoutButton.handleLogout. cbn [fold_left log_rejection run_effect].
  split; [|rewrite Hv; reflexivity].
  unfold nextauth_redirect, navigate. change (str_starts_with "/" "/login") with true. cbv beta iota.
  rewrite HL. change max_redirects with (S 19). rewrite browse_anonymous_login by done. done.
Qed.

(** C9. A sign-in that next-auth rejects changes nothing but the
    console: the cookie and the login page stay, and the [catch] of
    [handleLogin] logs ["Login error:"]. *)
Theorem sign_in_rejected_is_logged b page e :
  b_view b = Served page -> url_pathname page = "/login" ->
  step secret NEXTAUTH_URL b (ClickContinueWithGitHub (Rejected e))
  = mkBrowser (b_cookie b) (b_view b) (b_console b ++ [ConsoleError "Login error:" e]).
Proof.
  intros Hv Hl. unfold step. rewrite Hv, login_controls by done.
  unfold run_handler, LoginPage.handleLogin. cbn [fold_left log_rejection promise_unit run_effect].
  rewrite Hv. reflexivity.
Qed.

End SessionEnd.

(** ** Witnesses *)

Lemma login_flow_returns_to_requested_page_witness :
  run_actions (SessionProvider0 := nextauth_provider demo_decode) (Some "s") "http://localhost:3000"
    [Visit (localhost "/chat"); ClickContinueWithGitHub (Resolved "valid")] (mkBrowser None Blank [])
  = mkBrowser (Some "valid") (Served (localhost "/chat")) [].
Proof.
  apply (login_flow_returns_to_requested_page (SessionProvider0 := nextauth_provider demo_decode)
           (Some "s") "http://localhost:3000" (localhost "/chat") "valid" tt []);
    [reflexivity | reflexivity | discriminate | reflexivity | intros v; reflexivity
    | intros v; reflexivity].
Defined.

Lemma browse_settles_within_one_redirect_witness :
  browse (SessionProvider0 := nextauth_provider demo_decode) None (2 + 5)
    (mkRequest (localhost "/chat") None None)
  = browse (SessionProvider0 := nextauth_provider demo_decode) None 2
      (mkRequest (localhost "/chat") None None)
  /\ browse (SessionProvider0 := nextauth_provider demo_decode) None max_redirects
       (mkRequest (localhost "/chat") None None) <> TooManyRedirects.
Proof.
  exact (browse_settles_within_one_redirect (SessionProvider0 := nextauth_provider demo_decode)
           (SessionProviderLaws0 := nextauth_provider_laws demo_decode) None 5
           (mkRequest (localhost "/chat") None None)).
Defined.

Lemma logout_outcomes_witness :
  step (SessionProvider0 := nextauth_provider demo_decode) (Some "s") "http://localhost:3000"
    (mkBrowser (Some "valid") (Served (localhost "/dashboard")) []) (ClickLogout (Resolved tt))
  = mkBrowser None (Served (localhost "/login")) []
  /\ step (SessionProvider0 := nextauth_provider demo_decode) (Some "s") "http://localhost:3000"
       (mkBrowser (Some "valid") (Served (localhost "/dashboard")) []) (ClickLogout (Rejected (TypeError "fetch")))
     = mkBrowser (Some "valid") (Served (localhost "/dashboard"))
         [ConsoleError "Logout error:" (TypeError "fetch")].
Proof.
  apply (logout_outcomes (SessionProvider0 := nextauth_provider demo_decode) (Some "s")
           "http://localhost:3000" (mkBrowser (Some "valid") (Served (localhost "/dashboard")) [])
           (localhost "/dashboard")); [reflexivity.. | intros v; reflexivity].
Defined.

Lemma sign_in_rejected_is_logged_witness :
  step (SessionProvider0 := nextauth_provider demo_decode) (Some "s") "http://localhost:3000"
    (mkBrowser None (Served (localhost "/login")) []) (ClickContinueWithGitHub (Rejected (TypeError "fetch")))
  = mkBrowser None (Served (localhost "/login")) [ConsoleError "Login error:" (TypeError "fetch")].
Proof.
  refine (eq_trans (sign_in_rejected_is_logged (SessionProvider0 := nextauth_provider demo_decode)
           (Some "s") "http://localhost:3000" (mkBrowser None (Served (localhost "/login")) [])
           (localhost "/login") (TypeError "fetch") eq_refl eq_refl) _).
  reflexivity.
Defined.
