(* ===== verification/Chat.v ===== *)
(** * Chat: the chat page of [src/app/chat/page.tsx]

    The page keeps two pieces of React state, [messages] and
    [inputMessage]; its handlers are [handleSend] (ignore blank input,
    append the user's message, schedule the assistant's reply with
    [setTimeout(..., 1000)], clear the input), [handleKeyPress] (Enter
    without Shift sends) and the [onChange] and suggestion buttons that
    set the input.  The reply is a fixed string whose id is
    [(Date.now() + 1).toString()] read when the timer fires.

    The model is a state machine: [ChatState] holds the two React states,
    the clock ([Date.now()], in milliseconds) and the due times of the
    pending timers, in the order they were set; [chat_step] runs one
    event.  Time passes only through [Tick]: the browser is idle, so a
    timer fires at its due time, timers due at the same time firing in
    the order they were set.  React's functional updates
    ([setMessages(prev => ...)]) are applied in order, so no update is
    lost. *)

From S2P Require Import Prelude.
From Stdlib Require Import DecimalString.

(** [n.toString()] for an integer number. *)
Definition number_to_string (n : Z) : string :=
  NilEmpty.string_of_int (Z.to_int n).

Module ChatPage.
Local Open Scope Z_scope.

Inductive Sender := User | Assistant.

#[export] Instance sender_eq_dec : EqDecision Sender.
Proof. solve_decision. Defined.

(** [interface Message]: the timestamp is the [Date] in milliseconds. *)
Record Message := mkMessage {
  id : string;
  content : string;
  sender : Sender;
  timestamp : Z
}.

Record ChatState := mkChatState {
  messages : list Message;
  inputMessage : string;
  now : Z;
  timers : list Z
}.

(** [useState<Message[]>([])], [useState('')], at time [t0]. *)
Definition init (t0 : Z) : ChatState := mkChatState [] EmptyString t0 [].

Definition assistant_reply : string :=
  "I'm here to help! Let me know what you'd like to work on.".

(** The suggestion buttons, in the order the page renders them. *)
Definition suggestions : list string :=
  ["Generate an onboarding form"; "How can I structure LLM output?";
   "Write code to implement a min heap"].

(** [setInputMessage(value)]. *)
Definition setInputMessage (value : string) (s : ChatState) : ChatState :=
  mkChatState (messages s) value (now s) (timers s).

(** [handleSend]. *)
Definition handleSend (s : ChatState) : ChatState :=
  if String.eqb (js_trim (inputMessage s)) EmptyString then s
  else
    let userMessage :=
      mkMessage (number_to_string (now s)) (inputMessage s) User (now s) in
    mkChatState (messages s ++ [userMessage]) EmptyString (now s)
                (timers s ++ [now s + 1000]).

(** [handleKeyPress]: Enter without Shift prevents the newline and
    sends; any other key is left to the textarea. *)
Definition handleKeyPress (key : string) (shiftKey : bool) (s : ChatState) : ChatState :=
  if String.eqb key "Enter" && negb shiftKey then handleSend s else s.

(** The [setTimeout] callback, run at time [t]. *)
Definition assistantMessage (t : Z) : Message :=
  mkMessage (number_to_string (t + 1)) assistant_reply Assistant t.

(** Fire, in order, the pending timers due by [deadline], each at its
    due time (or at once, if the clock is already past it). *)
Fixpoint fire_due (deadline : Z) (pending : list Z) (msgs : list Message) (clock : Z)
    : list Message * list Z :=
  match pending with
  | [] => (msgs, [])
  | due :: rest =>
      if due <=? deadline then
        let t := Z.max clock due in
        fire_due deadline rest (msgs ++ [assistantMessage t]) t
      else (msgs, pending)
  end.

(** [d] milliseconds pass. *)
Definition tick (d : N) (s : ChatState) : ChatState :=
  let deadline := now s + Z.of_N d in
  let '(msgs, pending) := fire_due deadline (timers s) (messages s) (now s) in
  mkChatState msgs (inputMessage s) deadline pending.

Inductive ChatEvent :=
  | Change (value : string)
  | KeyDown (key : string) (shiftKey : bool)
  | ClickSend
  | ClickSuggestion (index : nat)
  | Tick (ms : N).

Definition chat_step (s : ChatState) (e : ChatEvent) : ChatState :=
  match e with
  | Change v => setInputMessage v s
  | KeyDown key shift => handleKeyPress key shift s
  | ClickSend => handleSend s
  | ClickSuggestion i =>
      match nth_error suggestions i with
      | Some text => setInputMessage text s
      | None => s
      end
  | Tick d => tick d s
  end.

Definition run_chat (events : list ChatEvent) (s : ChatState) : ChatState :=
  fold_left chat_step events s.

(** The bubbles [messages.map] renders: React key, alignment, bubble
    class and text. *)
Record Bubble := mkBubble {
  key : string;
  justify : string;
  bubble_class : string;
  text : string
}.

Definition render_message (m : Message) : Bubble :=
  mkBubble (id m)
    (if decide (sender m = User) then "justify-end" else "justify-start")
    (if decide (sender m = User) then "bg-primary text-primary-foreground" else "bg-muted")
    (content m).

Definition render_messages (s : ChatState) : list Bubble :=
  map render_message (messages s).

(** The number of messages from one sender. *)
Definition count_sender (who : Sender) (msgs : list Message) : nat :=
  length (filter (fun m => sender m = who) msgs).

End ChatPage.

(** [src/app/chat/layout.tsx]: static page metadata, and a layout that
    renders its children unchanged. *)
Module ChatLayout.

Record Metadata := mkMetadata { title : string; description : string }.

Definition metadata : Metadata := mkMetadata "Chat" "Chat with AI assistance".

Definition ChatLayout {A : Type} (children : A) : A := children.

End ChatLayout.

(** ** The pending replies are accounted for *)

Section ChatFacts.
Import ChatPage.
Local Open Scope Z_scope.

(** The chat's invariant: each message of the user has its reply shown
    or pending, and the pending timers are in due order, none of them
    overdue and none more than a second away. *)
Definition chat_inv (s : ChatState) : Prop :=
  count_sender User (messages s) = (count_sender Assistant (messages s) + length (timers s))%nat
  /\ StronglySorted Z.le (timers s)
  /\ Forall (fun due => now s < due <= now s + 1000) (timers s).

(** The messages are shown in the order of their timestamps, none of
    them later than the clock. *)
Definition time_order_inv (s : ChatState) : Prop :=
  StronglySorted Z.le (map timestamp (messages s))
  /\ Forall (fun m => timestamp m <= now s) (messages s).

Lemma count_sender_app who l1 l2 :
  count_sender who (l1 ++ l2) = (count_sender who l1 + count_sender who l2)%nat.
Proof. unfold count_sender. rewrite filter_app, length_app. done. Qed.

Lemma count_sender_one who m :
  count_sender who [m] = if decide (sender m = who) then 1%nat else 0%nat.
Proof. unfold count_sender. rewrite filter_cons, filter_nil. case_decide; done. Qed.

Lemma StronglySorted_snoc (l : list Z) a :
  StronglySorted Z.le l -> Forall (fun x => x <= a) l -> StronglySorted Z.le (l ++ [a]).
Proof.
  induction 1 as [|x l Hl IH Hx]; intros Ha; simpl.
  - repeat constructor.
  - inversion Ha as [|? ? Hxa Hla]; subst. constructor; [apply IH, Hla|].
    apply Forall_app. split; [done|]. constructor; [done|constructor].
Qed.

(** What firing the due timers does. *)
Lemma fire_due_spec deadline pending msgs clock :
  StronglySorted Z.le pending ->
  let '(msgs', pending') := fire_due deadline pending msgs clock in
  count_sender User msgs' = count_sender User msgs
  /\ (count_sender Assistant msgs' + length pending'
      = count_sender Assistant msgs + length pending)%nat
  /\ (exists pre, pending = pre ++ pending')
  /\ Forall (fun due => deadline < due) pending'.
Proof.
  revert msgs clock. induction pending as [|due rest IH]; intros msgs clock Hs; simpl.
  - split_and!; [done|lia|exists []; done|constructor].
  - apply StronglySorted_inv in Hs as [Hs Hdue].
    destruct (Z.leb_spec due deadline).
    + specialize (IH (msgs ++ [assistantMessage (Z.max clock due)]) (Z.max clock due) Hs).
      destruct (fire_due _ _ _ _) as [msgs' pending'].
      destruct IH as (Hu & Ha & [pre Hpre] & Hf).
      rewrite !count_sender_app, !count_sender_one in *. cbn [sender assistantMessage] in *.
      repeat case_decide; simplify_eq.
      split_and!; [lia|simpl in *; lia|exists (due :: pre); subst; done|done].
    + split_and!; [done|done|exists []; done|].
      constructor; [lia|]. eapply Forall_impl; [exact Hdue|]. simpl. lia.
Qed.

Lemma StronglySorted_app_r (pre l : list Z) :
  StronglySorted Z.le (pre ++ l) -> StronglySorted Z.le l.
Proof. induction pre as [|x pre IH]; simpl; [done|]. intros H. apply IH, (StronglySorted_inv H). Qed.

Lemma handleSend_inv s : chat_inv s -> chat_inv (handleSend s).
Proof.
  unfold handleSend. destruct (String.eqb _ _); [done|].
  intros (Hc & Hs & Hf). unfold chat_inv. cbn [messages timers now inputMessage].
  rewrite !count_sender_app, length_app. split_and!.
  - rewrite !count_sender_one. cbn [sender]. repeat case_decide; simplify_eq; simpl; lia.
  - apply StronglySorted_snoc; [done|]. eapply Forall_impl; [exact Hf|]. simpl. lia.
  - apply Forall_app. split; [|constructor; [lia|constructor]].
    eapply Forall_impl; [exact Hf|]. simpl. lia.
Qed.

Lemma tick_inv d s : chat_inv s -> chat_inv (tick d s).
Proof.
  intros (Hc & Hs & Hf). unfold tick.
  pose proof (fire_due_spec (now s + Z.of_N d) (timers s) (messages s) (now s) Hs) as Hspec.
  destruct (fire_due _ _ _ _) as [msgs' pending'].
  destruct Hspec as (Hu & Ha & [pre Hpre] & Hd). unfold chat_inv.
  cbn [messages timers now inputMessage]. split_and!.
  - lia.
  - rewrite Hpre in Hs. apply (StronglySorted_app_r pre), Hs.
  - rewrite Hpre in Hf. apply Forall_app in Hf as [_ Hf].
    apply Forall_forall. intros due Hin.
    pose proof (proj1 (Forall_forall _ _) Hd due Hin).
    pose proof (proj1 (Forall_forall _ _) Hf due Hin). simpl in *. lia.
Qed.

Lemma chat_step_inv s e : chat_inv s -> chat_inv (chat_step s e).
Proof.
  intros Hs. destruct e as [v|key shift| |i|d]; simpl.
  - done.
  - unfold handleKeyPress. destruct (_ && _); [apply handleSend_inv|]; done.
  - apply handleSend_inv, Hs.
  - destruct (nth_error _ _); done.
  - apply tick_inv, Hs.
Qed.

Lemma run_chat_inv evs s : chat_inv s -> chat_inv (run_chat evs s).
Proof.
  unfold run_chat. revert s. induction evs as [|e evs IH]; intros s Hs; simpl; [done|].
  apply IH, chat_step_inv, Hs.
Qed.

Lemma init_inv t0 : chat_inv (init t0).
Proof. split_and!; [done|constructor|constructor]. Qed.

(** *** The messages are in time order *)

Lemma time_order_snoc msgs m clock :
  StronglySorted Z.le (map timestamp msgs) -> Forall (fun m' => timestamp m' <= clock) msgs ->
  clock <= timestamp m ->
  StronglySorted Z.le (map timestamp (msgs ++ [m]))
  /\ Forall (fun m' => timestamp m' <= timestamp m) (msgs ++ [m]).
Proof.
  intros Hs Hf Hm. rewrite map_app. split.
  - apply StronglySorted_snoc; [done|]. apply Forall_map.
    eapply Forall_impl; [exact Hf|]. simpl. lia.
  - apply Forall_app. split; [|repeat constructor; lia].
    eapply Forall_impl; [exact Hf|]. simpl. lia.
Qed.

Lemma fire_due_time_order deadline pending msgs clock :
  StronglySorted Z.le (map timestamp msgs) -> Forall (fun m => timestamp m <= clock) msgs ->
  clock <= deadline ->
  StronglySorted Z.le (map timestamp (fst (fire_due deadline pending msgs clock)))
  /\ Forall (fun m => timestamp m <= deadline) (fst (fire_due deadline pending msgs clock)).
Proof.
  revert msgs clock. induction pending as [|due rest IH]; intros msgs clock Hs Hf Hc; simpl.
  - split; [done|]. eapply Forall_impl; [exact Hf|]. simpl. lia.
  - destruct (Z.leb_spec due deadline); simpl.
    + destruct (time_order_snoc msgs (assistantMessage (Z.max clock due)) clock Hs Hf)
        as [Hs' Hf']; [simpl; lia|].
      apply IH; [done|done|lia].
    + split; [done|]. eapply Forall_impl; [exact Hf|]. simpl. lia.
Qed.

Lemma chat_step_time_order s e : time_order_inv s -> time_order_inv (chat_step s e).
Proof.
  assert (Hsend : forall s, time_order_inv s -> time_order_inv (handleSend s)).
  { intros s0 [Hs Hf]. unfold handleSend. destruct (String.eqb _ _); [split; done|].
    unfold time_order_inv. cbn [messages now].
    pose proof (time_order_snoc _ (mkMessage (number_to_string (now s0)) (inputMessage s0)
                                   User (now s0)) (now s0) Hs Hf ltac:(simpl; lia)) as [H1 H2].
    split; assumption. }
  intros Hs. destruct e as [v|key shift| |i|d]; simpl.
  - done.
  - unfold handleKeyPress. destruct (_ && _); [apply Hsend|]; done.
  - apply Hsend, Hs.
  - destruct (nth_error _ _); done.
  - destruct Hs as [Hs Hf]. unfold tick.
    pose proof (fire_due_time_order (now s + Z.of_N d) (timers s) (messages s) (now s) Hs Hf
                  ltac:(lia)) as Hfd.
    destruct (fire_due _ _ _ _) as [msgs' pending']. exact Hfd.
Qed.

(** C27. Whatever the user types, clicks or waits, the chat shows its
    messages in the order of their timestamps, replies included: a
    reply fired by a timer never appears before a message sent after
    it. *)
Theorem messages_in_time_order t0 evs :
  StronglySorted Z.le (map timestamp (messages (run_chat evs (init t0)))).
Proof.
  assert (H : forall s, time_order_inv s -> time_order_inv (run_chat evs s)).
  { unfold run_chat. induction evs as [|e evs IH]; intros s Hs; simpl; [done|].
    apply IH, chat_step_time_order, Hs. }
  apply H. split; constructor.
Qed.

(** C10. In every state the chat page can reach from its first render,
    whatever the user types, clicks or waits: every message of the user
    has its assistant reply on screen or pending, the pending replies are
    due in the order they were scheduled, none is overdue, and none is
    more than a second away. *)
Theorem chat_replies_accounted t0 evs : chat_inv (run_chat evs (init t0)).
Proof. apply run_chat_inv, init_inv. Qed.

(** C11. Every message is answered within a second: after any run,
    1000 ms later no reply is pending and there are as many replies as
    messages of the user. *)
Theorem every_message_answered_within_a_second t0 evs :
  let s := run_chat (evs ++ [Tick 1000]) (init t0) in
  timers s = [] /\ count_sender User (messages s) = count_sender Assistant (messages s).
Proof.
  simpl. unfold run_chat. rewrite fold_left_app. simpl.
  pose proof (run_chat_inv evs _ (init_inv t0)) as (Hc & Hs & Hf).
  unfold run_chat in *. set (s := fold_left chat_step evs (init t0)) in *.
  unfold tick.
  pose proof (fire_due_spec (now s + Z.of_N 1000) (timers s) (messages s) (now s) Hs) as Hspec.
  destruct (fire_due _ _ _ _) as [msgs' pending'].
  destruct Hspec as (Hu & Ha & [pre Hpre] & Hd). simpl.
  assert (pending' = []) as ->.
  { destruct pending' as [|due rest]; [done|].
    rewrite Hpre in Hf. apply Forall_app in Hf as [_ Hf].
    inversion Hf; inversion Hd; subst. lia. }
  simpl in *. split; [done|lia].
Qed.

(** C12. A key press sends exactly when it is Enter without Shift and
    the input holds a character that is not white space; it then appends
    one message of the user whose text is the input as typed (not
    trimmed).  Shift+Enter, other keys and blank input change nothing. *)
Theorem keypress_sends_iff key shift s :
  (exists m, messages (handleKeyPress key shift s) = messages s ++ [m]
             /\ content m = inputMessage s /\ sender m = User)
  <-> key = "Enter" /\ shift = false /\ str_forallb js_is_whitespace (inputMessage s) = false.
Proof.
  unfold handleKeyPress, handleSend.
  destruct (String.eqb_spec key "Enter") as [->|Hk], shift; simpl.
  - split; [|intros (_ & ? & _); done].
    intros (m & Hm & _). by apply list_snoc_neq in Hm.
  - destruct (String.eqb_spec (js_trim (inputMessage s)) EmptyString) as [Ht|Ht].
    + apply js_trim_empty in Ht. rewrite Ht. split; [|intros (_ & _ & ?); done].
      intros (m & Hm & _). by apply list_snoc_neq in Hm.
    + destruct (str_forallb _ _) eqn:Hw; [apply js_trim_empty in Hw; done|].
      split; [done|]. intros _. eexists. split_and!; reflexivity.
  - split; [|intros (? & _); done].
    intros (m & Hm & _). by apply list_snoc_neq in Hm.
  - split; [|intros (? & _); done].
    intros (m & Hm & _). by apply list_snoc_neq in Hm.
Qed.

Lemma fire_due_app deadline pending msgs clock :
  exists extra, fst (fire_due deadline pending msgs clock) = msgs ++ extra.
Proof.
  revert msgs clock. induction pending as [|due rest IH]; intros msgs clock; simpl.
  - exists []. rewrite app_nil_r. done.
  - destruct (due <=? deadline); simpl; [|exists []; rewrite app_nil_r; done].
    destruct (IH (msgs ++ [assistantMessage (Z.max clock due)]) (Z.max clock due)) as [e ->].
    eexists. rewrite <-app_assoc. done.
Qed.

Lemma tick_appends d s : exists extra, messages (tick d s) = messages s ++ extra.
Proof.
  unfold tick. pose proof (fire_due_app (now s + Z.of_N d) (timers s) (messages s) (now s)) as [e He].
  destruct (fire_due _ _ _ _). exists e. done.
Qed.

Lemma tick_input d s : inputMessage (tick d s) = inputMessage s.
Proof. unfold tick. destruct (fire_due _ _ _ _). done. Qed.

Lemma tick_now d s : now (tick d s) = now s + Z.of_N d.
Proof. unfold tick. destruct (fire_due _ _ _ _). done. Qed.

(** Waiting until the first pending timer is due fires its reply, stamped
    with that time. *)
Lemma tick_fires_first s d rest :
  timers s = d :: rest -> now s < d ->
  now (tick (Z.to_N (d - now s)) s) = d /\
  exists extra, messages (tick (Z.to_N (d - now s)) s) = messages s ++ assistantMessage d :: extra.
Proof.
  intros Ht Hd. unfold tick. rewrite Z2N.id by lia.
  replace (now s + (d - now s)) with d by lia. rewrite Ht. simpl.
  rewrite Z.leb_refl, Z.max_r by lia.
  destruct (fire_due_app d rest (messages s ++ [assistantMessage d]) d) as [e He].
  destruct (fire_due d rest _ d) as [msgs' pending']. simpl in *. split; [done|].
  exists e. rewrite He, <-app_assoc. done.
Qed.

Lemma not_NoDup_repeat {A} (l1 l2 : list A) x : ~ NoDup (l1 ++ x :: l2 ++ [x]).
Proof.
  rewrite NoDup_app. intros (_ & _ & Hnd). apply NoDup_cons in Hnd as [Hx _].
  apply Hx, elem_of_app. right. by left.
Qed.

(** C13. Message ids are not unique, and React keys the bubbles by
    them: from any state the chat reaches, with a reply pending, a user
    who waits until it fires and sends a non-blank message one
    millisecond later gets two bubbles with the same key, the reply's
    id [t + 1] being the id of a message sent at [t + 1]. *)
Theorem duplicate_react_keys t0 evs v d rest :
  let s := run_chat evs (init t0) in
  timers s = d :: rest -> js_trim v <> EmptyString ->
  ~ NoDup (map key (render_messages
                      (run_chat [Tick (Z.to_N (d - now s)); Change v; Tick 1; ClickSend] s))).
Proof.
  intros s Ht Hv. pose proof (run_chat_inv evs _ (init_inv t0)) as (_ & _ & Hf).
  fold s in Hf. rewrite Ht in Hf. apply Forall_cons in Hf as [Hd _].
  destruct (tick_fires_first s d rest Ht ltac:(lia)) as [Hn [e1 Hm]].
  unfold run_chat. cbn [fold_left chat_step].
  set (s1 := tick (Z.to_N (d - now s)) s) in *.
  destruct (tick_appends 1 (setInputMessage v s1)) as [e2 Hm2].
  assert (Hi : inputMessage (tick 1 (setInputMessage v s1)) = v) by apply tick_input.
  assert (Hn2 : now (tick 1 (setInputMessage v s1)) = d + 1) by (rewrite tick_now; simpl; lia).
  unfold handleSend. rewrite Hi. apply String.eqb_neq in Hv. rewrite Hv.
  unfold render_messages. cbn [messages]. rewrite Hm2, Hn2. cbn [messages setInputMessage]. rewrite Hm.
  rewrite !map_map, !map_app. cbn [map key render_message id assistantMessage].
  rewrite <-!app_assoc, <-app_comm_cons, (app_assoc (map _ e1)). apply not_NoDup_repeat.
Qed.

End ChatFacts.

(** ** Witnesses *)

Import ChatPage.

(** A message, its reply a second later, and a message one millisecond
    after the reply. *)
Lemma duplicate_react_keys_witness :
  ~ NoDup (map key (render_messages
                      (run_chat [Tick 1000; Change "again"; Tick 1; ClickSend]
                         (run_chat [Change "hi"; ClickSend] (init 1700000000000))))).
Proof.
  exact (duplicate_react_keys 1700000000000 [Change "hi"; ClickSend] "again" 1700000001000 []
           eq_refl ltac:(vm_compute; discriminate)).
Defined.
