(* ===== verification/ChatView.v ===== *)
(** * ChatView: the element tree of [src/app/chat/page.tsx]

    What [ChatPage] renders inside its layout: the message bubbles, then
    the input area with an attachment button, the textarea (its value is
    [inputMessage], its [onChange] and [onKeyDown] are the page's
    handlers), the send button and the three suggestion buttons.  A
    handler takes the DOM event it is given and the page state to the
    next state.  [ChatScreen.v] places this tree in the whole page. *)

From S2P Require Import Prelude Chat.
Import ChatPage.

Module ChatView.

(** The DOM events the handlers of the page receive. *)
Inductive DomEvent :=
  | DClick
  | DChange (value : string)
  | DKeyDown (key : string) (shiftKey : bool).

Definition ChatHandler : Type := DomEvent -> ChatState -> ChatState.

(** [onClick={f}]: the state update a click performs. *)
Definition on_click (f : ChatState -> ChatState) : ChatHandler :=
  fun e s => match e with DClick => f s | _ => s end.

(** [onChange={(e) => setInputMessage(e.target.value)}]. *)
Definition on_change : ChatHandler :=
  fun e s => match e with DChange v => setInputMessage v s | _ => s end.

(** [onKeyDown={handleKeyPress}]. *)
Definition on_key_down : ChatHandler :=
  fun e s => match e with DKeyDown k sh => handleKeyPress k sh s | _ => s end.

(** One message bubble. *)
Definition bubble_node (b : Bubble) : VNode ChatHandler :=
  VElem "div" [("key", key b); ("className", "flex " +:+ justify b)] []
    [VElem "div" [("className", "max-w-[80%] rounded-lg px-4 py-2 " +:+ bubble_class b)] []
       [VText (text b)]].

Definition suggestion_button (label : string) (f : ChatState -> ChatState) : VNode ChatHandler :=
  VElem "Button" [("variant", "secondary"); ("size", "sm")] [("onClick", on_click f)] [VText label].

(** The page's main area. *)
Definition view (s : ChatState) : VNode ChatHandler :=
  VElem "div" [("className", "flex flex-1 flex-col gap-4 p-4 pt-0")] []
    [VElem "div" [("className", "flex items-center justify-between")] []
       [VElem "h2" [("className", "text-3xl font-bold tracking-tight")] []
          [VText "What can I help you ship?"]];
     VElem "div" [("className", "flex flex-col flex-1 border rounded-lg bg-background")] []
       [VElem "div" [("className", "flex-1 overflow-auto p-4 space-y-4")] []
          (map bubble_node (render_messages s));
        VElem "div" [("className", "border-t p-4")] []
          [VElem "div" [("className", "flex gap-2")] []
             [VElem "Button" [("variant", "outline"); ("size", "icon")] []
                [VElem "PaperclipIcon" [("className", "h-4 w-4")] [] []];
              VElem "Textarea"
                [("placeholder", "Ask a question..."); ("value", inputMessage s); ("rows", "1");
                 ("className", "flex-1 min-h-[40px] max-h-[200px] resize-none py-2")]
                [("onChange", on_change); ("onKeyDown", on_key_down)] [];
              VElem "Button" [] [("onClick", on_click handleSend)]
                [VElem "SendHorizontal" [("className", "h-4 w-4 -rotate-45")] [] []]];
           VElem "div" [("className", "flex gap-2 mt-2")] []
             [suggestion_button "Generate an onboarding form"
                (setInputMessage "Generate an onboarding form");
              suggestion_button "How can I structure LLM output?"
                (setInputMessage "How can I structure LLM output?");
              suggestion_button "Write code to implement a min heap"
                (setInputMessage "Write code to implement a min heap")]]]].

End ChatView.
