(* ===== verification/ChatScreen.v ===== *)
(** * ChatScreen: the whole [ChatPage] of [src/app/chat/page.tsx]

    [Chat.v] models the page's state and events and [ChatView.v] the
    chat area it renders.  This file puts them together the way the
    component runs in React:

    - the [textareaRef] of line 21 and the auto-resize effect of lines
      24-29, run by React after a commit when its dependency array
      [[inputMessage]] changed; the browser's layout ([scrollHeight]) is
      a parameter of the Section;
    - the mounted component: its state, the textarea the ref points at
      and the dependencies of the effect's last run; one event is one
      state update followed by one commit;
    - the element tree the page returns (lines 65-143): the sidebar,
      then the inset holding the [AppHeader] of [Header.v] and the chat
      area, their handlers joined in a sum type.

    The theorem shows that the textarea's height is always the height of
    the text it holds, whatever events ran. *)

From S2P Require Import Prelude Url Login Header Chat ChatView.
Import ChatPage ChatView.

Module ChatScreen.

(** The [HTMLTextAreaElement] the ref points at: its [value] and its
    inline [style.height]. *)
Record TextareaEl := mkTextarea { ta_value : string; ta_height : string }.

(** [useEffect(effect, deps)] reruns [effect] after a commit when there
    was no previous run or an entry of [deps] differs ([Object.is]; for
    strings, equal content) from the previous run's. *)
Definition deps_changed (prev : option (list string)) (next : list string) : bool :=
  match prev with
  | None => true
  | Some p => negb (bool_decide (p = next))
  end.

(** The dependency array of the auto-resize effect, [[inputMessage]]. *)
Definition autoResize_deps (s : ChatState) : list string := [inputMessage s].

(** The mounted component: the two [useState] hooks (with the clock and
    timers of [ChatState]), [textareaRef.current], and the dependencies
    React kept from the effect's last run ([None] before the first). *)
Record Mounted := mkMounted {
  state : ChatState;
  textareaRef : option TextareaEl;
  effect_deps : option (list string)
}.

Section Render.

(** [scrollHeight] of a textarea, a whole number of pixels: the browser
    computes it from the element's content and style. *)
Variable scrollHeight : TextareaEl -> Z.

(** The effect: [if (textareaRef.current) { style.height = 'auto';
    style.height = textareaRef.current.scrollHeight + 'px' }]. *)
Definition autoResize (ref : option TextareaEl) : option TextareaEl :=
  match ref with
  | Some el =>
      let el := mkTextarea (ta_value el) "auto" in
      Some (mkTextarea (ta_value el) (number_to_string (scrollHeight el) +:+ "px"))
  | None => None
  end.

(** A commit of the render of [s]: React writes the controlled
    textarea's [value] (a fresh element, with no inline height, on
    mount), sets the ref, then runs the effect if its dependencies
    changed. *)
Definition commit (s : ChatState) (m : Mounted) : Mounted :=
  let el := match textareaRef m with
            | Some el => mkTextarea (inputMessage s) (ta_height el)
            | None => mkTextarea (inputMessage s) EmptyString
            end in
  let deps := autoResize_deps s in
  if deps_changed (effect_deps m) deps
  then mkMounted s (autoResize (Some el)) (Some deps)
  else mkMounted s (Some el) (effect_deps m).

Definition mount (t0 : Z) : Mounted := commit (init t0) (mkMounted (init t0) None None).

(** One event: the state update of [chat_step], then the commit of the
    new render. *)
Definition dispatch (m : Mounted) (e : ChatEvent) : Mounted :=
  commit (chat_step (state m) e) m.

Definition run_page (events : list ChatEvent) (m : Mounted) : Mounted :=
  fold_left dispatch events m.

(** The height the effect gives a textarea holding [v]. *)
Definition fitted_height (v : string) : string :=
  number_to_string (scrollHeight (mkTextarea v "auto")) +:+ "px".

(** The textarea is on screen, shows the input and has the height of its
    text, and React holds the input as the effect's last dependencies. *)
Definition textarea_fits (m : Mounted) : Prop :=
  textareaRef m = Some (mkTextarea (inputMessage (state m)) (fitted_height (inputMessage (state m))))
  /\ effect_deps m = Some (autoResize_deps (state m)).

End Render.

(** The handlers of the page: the header's (a promise-consuming click
    handler of [Login.v]) or the chat area's. *)
Definition PageHandler : Type := LoginPage.Handler + ChatHandler.

(** What [ChatPage] returns.  [AppSidebar] is imported from a file that
    is not among the sources; it stands here as an element without
    content. *)
Definition page (pathname : string) (s : ChatState) : VNode PageHandler :=
  VElem "SidebarProvider" [] []
    [VElem "AppSidebar" [] [] [];
     VElem "SidebarInset" [] []
       [vmap inl (AppHeader.view pathname); vmap inr (ChatView.view s)]].

End ChatScreen.

(** ** Facts *)

Section ScreenFacts.
Import ChatScreen.
Variable scrollHeight : TextareaEl -> Z.

Lemma state_commit s m : state (commit scrollHeight s m) = s.
Proof. unfold commit. destruct (deps_changed _ _); done. Qed.

Lemma state_run_page evs m :
  state (run_page scrollHeight evs m) = run_chat evs (state m).
Proof.
  revert m. induction evs as [|e evs IH]; intros m; [done|].
  unfold run_page, run_chat in *. simpl. rewrite IH. unfold dispatch. rewrite state_commit. done.
Qed.

(** A commit keeps the textarea fitted: when the input changed the effect
    reruns and measures it again; when it did not, neither did the value
    nor the height. *)
Lemma commit_fits s m :
  effect_deps m = None \/ textarea_fits scrollHeight m ->
  textarea_fits scrollHeight (commit scrollHeight s m).
Proof.
  unfold commit, textarea_fits, autoResize_deps. intros Hm.
  destruct (deps_changed _ _) eqn:Hch; [unfold fitted_height; destruct (textareaRef m); done|].
  destruct Hm as [Hn|[Href Hdeps]]; rewrite ?Hn, ?Hdeps in Hch; [done|].
  apply negb_false_iff, bool_decide_eq_true in Hch. injection Hch as Heq.
  rewrite Href, Hdeps. simpl. rewrite Heq. done.
Qed.

Lemma run_page_fits evs m :
  textarea_fits scrollHeight m -> textarea_fits scrollHeight (run_page scrollHeight evs m).
Proof.
  revert m. induction evs as [|e evs IH]; intros m Hm; [done|].
  apply IH. unfold dispatch. apply commit_fits. by right.
Qed.

(** C29. Auto-resize: after the page mounts and after any sequence of
    events, the component's state is the chat model's, and the textarea
    holds the input with the height of that text, the
    [scrollHeight + 'px'] the effect measures after resetting the height
    to [auto]; the dependency array [[inputMessage]] reruns the effect
    exactly when the text changed. *)
Theorem textarea_height_follows_input t0 evs :
  let m := run_page scrollHeight evs (mount scrollHeight t0) in
  state m = run_chat evs (init t0) /\
  textareaRef m = Some (mkTextarea (inputMessage (state m))
                                   (fitted_height scrollHeight (inputMessage (state m)))).
Proof.
  simpl. split.
  - rewrite state_run_page. unfold mount. rewrite state_commit. done.
  - apply run_page_fits. unfold mount. apply commit_fits. by left.
Qed.

End ScreenFacts.
