(* ===== verification/NavMain.v ===== *)
(** * NavMain: the collapsible sidebar menu of [src/components/nav-main.tsx]

    [NavMain] keeps one piece of React state, [expandedItems], the list of
    the titles of the open sections.  It starts with the titles of the
    items that are marked active, whose url is the current pathname, or
    one of whose sub-items has the current pathname as url;
    [toggleItem] removes a title that is present and appends one that is
    absent.  Each item renders as a plain link when it has no sub-items,
    and otherwise as a collapsible section, open exactly when its title
    is in [expandedItems], listing its sub-items with the one whose url is
    the pathname highlighted.  A click on a section's trigger runs the
    button's [onClick], which toggles the section and calls
    [preventDefault], which stops the trigger's own toggle (Radix's
    [composeEventHandlers] skips a handler whose event was
    default-prevented): one click is one [toggleItem]. *)

From S2P Require Import Prelude.

Module NavMain.

(** The props: [{ title, url, icon?, isActive?, items? }]; the icon is
    presentation only. *)
Record SubItem := mkSubItem { sub_title : string; sub_url : string }.

Record NavItem := mkNavItem {
  title : string;
  url : string;
  isActive : option bool;
  items : option (list SubItem)
}.

(** [item.isActive || item.url === pathname ||
     item.items?.some(subItem => subItem.url === pathname)]: an absent
    [isActive] or [items] is falsy. *)
Definition initially_open (pathname : string) (item : NavItem) : bool :=
  default false (isActive item)
  || String.eqb (url item) pathname
  || match items item with
     | Some subs => existsb (fun s => String.eqb (sub_url s) pathname) subs
     | None => false
     end.

(** The initialiser of [useState]. *)
Definition initialExpanded (navItems : list NavItem) (pathname : string) : list string :=
  map title (filter (fun item => initially_open pathname item = true) navItems).

(** [toggleItem]'s state updater. *)
Definition toggleItem (t : string) (prev : list string) : list string :=
  if js_includes prev t then filter (fun x => x <> t) prev
  else prev ++ [t].

(** [Boolean(item.items?.length)]. *)
Definition hasSubItems (item : NavItem) : bool :=
  match items item with
  | Some (_ :: _) => true
  | _ => false
  end.

(** What [items.map] renders. *)
Record SubEntry := mkSubEntry {
  se_key : string;
  se_href : string;
  se_label : string;
  se_active : bool
}.

Inductive MenuEntry :=
  | MenuLink (key : string) (href : string) (label : string)
  | MenuSection (key : string) (label : string) (open : bool) (subs : list SubEntry).

Definition render_sub (pathname : string) (s : SubItem) : SubEntry :=
  mkSubEntry (sub_title s) (sub_url s) (sub_title s) (String.eqb pathname (sub_url s)).

Definition render_item (pathname : string) (expanded : list string) (item : NavItem) : MenuEntry :=
  let isExpanded := js_includes expanded (title item) in
  if negb (hasSubItems item) then MenuLink (title item) (url item) (title item)
  else MenuSection (title item) (title item) isExpanded
         (map (render_sub pathname) (default [] (items item))).

Definition render_nav (pathname : string) (navItems : list NavItem)
    (expanded : list string) : list MenuEntry :=
  map (render_item pathname expanded) navItems.

(** A click on the trigger of the section titled [t]. *)
Definition run_clicks (clicks : list string) (expanded : list string) : list string :=
  fold_left (fun s t => toggleItem t s) clicks expanded.

(** The open flag of a rendered entry, and the entry with it flipped
    when its key is [t]. *)
Definition entry_open (e : MenuEntry) : option bool :=
  match e with
  | MenuLink _ _ _ => None
  | MenuSection _ _ o _ => Some o
  end.

Definition flip_section (t : string) (e : MenuEntry) : MenuEntry :=
  match e with
  | MenuSection k l o subs => MenuSection k l (if String.eqb k t then negb o else o) subs
  | e => e
  end.

(** A sidebar of two items, the first with two sub-items. *)
Definition demo_items : list NavItem :=
  [mkNavItem "Dashboard" "/dashboard" None
     (Some [mkSubItem "Overview" "/dashboard"; mkSubItem "Reports" "/dashboard/reports"]);
   mkNavItem "Chat" "/chat" None None].

(** A sidebar where two sections share the title "Settings". *)
Definition dup_items : list NavItem :=
  [mkNavItem "Settings" "/settings" None (Some [mkSubItem "General" "/settings"]);
   mkNavItem "Settings" "/admin" None (Some [mkSubItem "Users" "/admin/users"])].

End NavMain.

(** ** Facts *)

Section NavFacts.
Import NavMain.

Lemma elem_of_toggleItem t prev x :
  x ∈ toggleItem t prev <-> (x ∈ prev /\ x <> t) \/ (x = t /\ t ∉ prev).
Proof.
  unfold toggleItem. rewrite js_includes_bool_decide. case_bool_decide.
  - rewrite list_elem_of_filter. naive_solver.
  - rewrite elem_of_app, list_elem_of_singleton. naive_solver.
Qed.

(** One toggle flips the membership of [t] and of nothing else. *)
Lemma js_includes_toggleItem t prev x :
  js_includes (toggleItem t prev) x =
  if String.eqb x t then negb (js_includes prev x) else js_includes prev x.
Proof.
  rewrite !js_includes_bool_decide.
  destruct (String.eqb_spec x t) as [->|Hne];
    repeat case_bool_decide; rewrite ?elem_of_toggleItem in *; naive_solver.
Qed.

Lemma toggleItem_NoDup t prev : NoDup prev -> NoDup (toggleItem t prev).
Proof.
  unfold toggleItem. rewrite js_includes_bool_decide. case_bool_decide.
  - apply NoDup_filter.
  - intros Hnd. apply NoDup_app. split_and!; [done| |apply NoDup_singleton].
    intros x Hx ->%list_elem_of_singleton. done.
Qed.

Lemma run_clicks_cons c cs prev :
  run_clicks (c :: cs) prev = run_clicks cs (toggleItem c prev).
Proof. done. Qed.

(** C17. A click on the trigger of the section titled [t] flips the open
    state of the sections keyed [t] and leaves every other entry of the
    menu as it was. *)
Theorem toggle_flips_only_that_section pathname navItems t prev :
  render_nav pathname navItems (toggleItem t prev) =
  map (flip_section t) (render_nav pathname navItems prev).
Proof.
  unfold render_nav. rewrite map_map. apply map_ext. intros item.
  unfold render_item. destruct (hasSubItems item); simpl; [|done].
  rewrite js_includes_toggleItem. done.
Qed.

(** C18. After any sequence of clicks, a title is expanded exactly when
    it was expanded at the start and was clicked an even number of
    times, or was collapsed and clicked an odd number of times. *)
Theorem clicks_parity clicks prev x :
  js_includes (run_clicks clicks prev) x =
  xorb (Nat.odd (count_occ string_dec clicks x)) (js_includes prev x).
Proof.
  revert prev. induction clicks as [|c cs IH]; intros prev; [done|].
  rewrite run_clicks_cons, IH, js_includes_toggleItem. simpl.
  destruct (string_dec c x) as [->|Hne].
  - rewrite String.eqb_refl, Nat.odd_succ, <- Nat.negb_odd.
    destruct (Nat.odd _), (js_includes prev x); done.
  - replace (String.eqb x c) with false by (symmetry; apply String.eqb_neq; congruence).
    done.
Qed.

(** C19. When the items have distinct titles, the list of expanded
    titles never holds a title twice, from the initial state through any
    sequence of clicks. *)
Theorem expanded_titles_nodup navItems pathname clicks :
  NoDup (map title navItems) ->
  NoDup (run_clicks clicks (initialExpanded navItems pathname)).
Proof.
  intros Hnd. unfold initialExpanded.
  generalize (NoDup_map_filter title (fun item => initially_open pathname item = true) navItems Hnd).
  generalize (map title (filter (fun item => initially_open pathname item = true) navItems)).
  induction clicks as [|c cs IH]; intros prev Hprev; [done|].
  rewrite run_clicks_cons. apply IH, toggleItem_NoDup, Hprev.
Qed.

(** C20. On first render, a section one of whose sub-items is the current
    page is open. *)
Theorem current_section_starts_open pathname navItems i item :
  navItems !! i = Some item ->
  hasSubItems item = true ->
  Exists (fun s => sub_url s = pathname) (default [] (items item)) ->
  entry_open <$> render_nav pathname navItems (initialExpanded navItems pathname) !! i
  = Some (Some true).
Proof.
  intros Hi Hsub Hex. unfold render_nav.
  rewrite list_lookup_map, Hi. simpl. unfold render_item. rewrite Hsub. simpl.
  do 2 f_equal. apply js_includes_spec. unfold initialExpanded.
  rewrite list_elem_of_In, in_map_iff. exists item. split; [done|].
  rewrite <- list_elem_of_In, list_elem_of_filter.
  split; [|eapply list_elem_of_lookup_2; eauto].
  unfold initially_open. destruct (items item) as [subs|]; simpl in Hex; [|inversion Hex].
  apply Exists_exists in Hex as (s & Hs & Hurl).
  apply orb_true_intro. right. apply existsb_exists. exists s.
  split; [by apply list_elem_of_In|]. apply String.eqb_eq. done.
Qed.

(** C30. The open state and the React key of a section are its title:
    two sections with the same title are rendered, after any clicks,
    with the same key and the same open flag, so they open and close
    together and cannot be told apart by React. *)
Theorem same_title_sections_share_state navItems pathname clicks i j a b :
  navItems !! i = Some a -> navItems !! j = Some b -> title a = title b ->
  hasSubItems a = true -> hasSubItems b = true ->
  let expanded := run_clicks clicks (initialExpanded navItems pathname) in
  exists o,
    render_nav pathname navItems expanded !! i
      = Some (MenuSection (title a) (title a) o (map (render_sub pathname) (default [] (items a)))) /\
    render_nav pathname navItems expanded !! j
      = Some (MenuSection (title a) (title a) o (map (render_sub pathname) (default [] (items b)))).
Proof.
  intros Hi Hj Ht Ha Hb expanded. unfold render_nav.
  rewrite !list_lookup_map, Hi, Hj. simpl. unfold render_item. rewrite Ha, Hb, <-Ht.
  eexists. split; reflexivity.
Qed.

End NavFacts.

(** ** Witnesses *)

Import NavMain.

Lemma expanded_titles_nodup_witness :
  NoDup (map title demo_items) /\
  NoDup (run_clicks ["Chat"; "Dashboard"; "Dashboard"] (initialExpanded demo_items "/dashboard/reports")).
Proof.
  assert (H : NoDup (map title demo_items)) by (apply (bool_decide_unpack (NoDup (map title demo_items))); vm_compute; exact I).
  split; [exact H|]. exact (expanded_titles_nodup _ _ _ H).
Defined.

Lemma current_section_starts_open_witness :
  entry_open <$> render_nav "/dashboard/reports" demo_items
                   (initialExpanded demo_items "/dashboard/reports") !! 0 = Some (Some true).
Proof.
  refine (current_section_starts_open "/dashboard/reports" demo_items 0
            (mkNavItem "Dashboard" "/dashboard" None
               (Some [mkSubItem "Overview" "/dashboard"; mkSubItem "Reports" "/dashboard/reports"]))
            eq_refl eq_refl _).
  simpl. apply Exists_cons. right. apply Exists_cons. left. reflexivity.
Defined.

Lemma same_title_sections_share_state_witness :
  exists o,
    render_nav "/settings" dup_items (run_clicks ["Settings"] (initialExpanded dup_items "/settings")) !! 1
      = Some (MenuSection "Settings" "Settings" o [mkSubEntry "Users" "/admin/users" "Users" false]).
Proof.
  destruct (same_title_sections_share_state dup_items "/settings" ["Settings"] 0 1
              (mkNavItem "Settings" "/settings" None (Some [mkSubItem "General" "/settings"]))
              (mkNavItem "Settings" "/admin" None (Some [mkSubItem "Users" "/admin/users"]))
              eq_refl eq_refl eq_refl eq_refl eq_refl) as [o [_ H]].
  exists o. exact H.
Defined.
