(* ===== verification/Dashboard.v ===== *)
(** * Dashboard: the data preparation of [src/app/dashboard/page.tsx]

    The page keeps a date range in React state (from 120 days before now
    to now) and derives two arrays from the static fixture
    [chartData]: [formattedMonthlyData], the monthly items with the date
    parsed, kept when inside the range (all kept when either end of the
    range is unset), and the date formatted back as [yyyy-MM-dd]; and
    [tableData], which joins the i-th of those rows with the category
    entry at [i % categoryData.length].  Charts and the table only
    display these arrays.

    date-fns and [Number] are libraries the page calls: [parseISO] (an
    invalid date is [None]), [format] on a valid time value, [addDays]
    and [Number] are parameters of the section; [isWithinInterval] and
    the throw of [format] on an invalid date are written out as date-fns
    3 defines them. *)

From S2P Require Import Prelude.

Module DashboardPage.

(** A date parser and formatter for two fixture dates, at midnight UTC. *)
Definition demo_parseISO (s : string) : option Z :=
  if String.eqb s "2024-01-15" then Some 1705276800000%Z
  else if String.eqb s "2024-02-15" then Some 1707955200000%Z
  else None.

Definition demo_format (t : Z) : string :=
  if Z.eqb t 1705276800000 then "2024-01-15" else "2024-02-15".

Section Page.
Context {Raw Num : Type}.
Variable Number : Raw -> Num.
Variable parseISO : string -> option Z.
Variable format_yyyy_MM_dd : Z -> string.
Variable addDays : Z -> Z -> Z.

(** [chartData.monthlyData] and [chartData.categoryData] items. *)
Record MonthlyItem := mkMonthlyItem {
  mi_date : string;
  mi_revenue : Raw;
  mi_users : Raw
}.

Record CategoryItem := mkCategoryItem {
  category : string;
  sales : Raw;
  profit : Raw
}.

(** The items after the first [map], and after the last one. *)
Record Parsed := mkParsed { p_date : option Z; p_revenue : Num; p_users : Num }.

Record Row := mkRow { date : string; revenue : Num; users : Num }.

(** A row of [tableData]: the row spread, and the category's fields. *)
Record TableRow := mkTableRow {
  t_date : string;
  t_revenue : Num;
  t_users : Num;
  t_category : string;
  t_sales : Raw;
  t_profit : Raw
}.

(** react-day-picker's [DateRange], both ends optional. *)
Record DateRange := mkDateRange { from : option Z; to : option Z }.

(** The initial state: [{ from: addDays(new Date(), -120), to: new Date() }]. *)
Definition initial_date (now : Z) : option DateRange :=
  Some (mkDateRange (Some (addDays now (-120))) (Some now)).

(** date-fns' [isWithinInterval]: an invalid date is outside every
    interval; the ends are taken in either order. *)
Definition isWithinInterval (d : option Z) (start end_ : Z) : bool :=
  match d with
  | None => false
  | Some t => (Z.min start end_ <=? t)%Z && (t <=? Z.max start end_)%Z
  end.

(** date-fns' [format]: a [RangeError] on an invalid date. *)
Definition format (d : option Z) : Promise string :=
  match d with
  | None => Rejected (RangeError "Invalid time value")
  | Some t => Resolved (format_yyyy_MM_dd t)
  end.

Definition parse_item (item : MonthlyItem) : Parsed :=
  mkParsed (parseISO (mi_date item)) (Number (mi_revenue item)) (Number (mi_users item)).

(** The [filter] callback. *)
Definition in_range (range : option DateRange) (item : Parsed) : bool :=
  match range with
  | Some (mkDateRange (Some f) (Some t)) => isWithinInterval (p_date item) f t
  | _ => true
  end.

Definition format_item (item : Parsed) : Promise Row :=
  d ← format (p_date item);
  mret (mkRow d (p_revenue item) (p_users item)).

Definition formattedMonthlyData (range : option DateRange) (monthlyData : list MonthlyItem)
    : Promise (list Row) :=
  mapM format_item (filter (fun item => in_range range item = true) (map parse_item monthlyData)).

(** [index % length]: [NaN] when the length is [0]. *)
Definition js_mod (index length : nat) : option nat :=
  if Nat.eqb length 0 then None else Some (index mod length).

(** The [tableData] callback: reading [.category] of [undefined] throws. *)
Definition table_row (categoryData : list CategoryItem) (index : nat) (item : Row)
    : Promise TableRow :=
  match js_mod index (length categoryData) ≫= fun k => categoryData !! k with
  | None => Rejected (TypeError "Cannot read properties of undefined (reading 'category')")
  | Some c =>
      Resolved (mkTableRow (date item) (revenue item) (users item)
                           (category c) (sales c) (profit c))
  end.

Definition tableData (rows : list Row) (categoryData : list CategoryItem)
    : Promise (list TableRow) :=
  mapM (fun p => p) (imap (table_row categoryData) rows).

(** One render of the page: both arrays, or the exception it throws. *)
Definition render (range : option DateRange) (monthlyData : list MonthlyItem)
    (categoryData : list CategoryItem) : Promise (list Row * list TableRow) :=
  rows ← formattedMonthlyData range monthlyData;
  table ← tableData rows categoryData;
  mret (rows, table).

(** The rows the page should chart for a range [[f, t]]: the items
    whose date parses and lies inside it, in order. *)
Definition in_range_rows (f t : Z) (monthlyData : list MonthlyItem) : list Row :=
  omap (fun item =>
          match parseISO (mi_date item) with
          | Some d =>
              if isWithinInterval (Some d) f t
              then Some (mkRow (format_yyyy_MM_dd d) (Number (mi_revenue item)) (Number (mi_users item)))
              else None
          | None => None
          end) monthlyData.

(** ** Facts *)

Lemma formattedMonthlyData_cons range item l :
  formattedMonthlyData range (item :: l) =
  if in_range range (parse_item item)
  then (y ← format_item (parse_item item); k ← formattedMonthlyData range l; mret (y :: k))
  else formattedMonthlyData range l.
Proof.
  unfold formattedMonthlyData. simpl. rewrite filter_cons.
  destruct (in_range range (parse_item item)); done.
Qed.

(** With both ends of the range set, the pipeline computes
    [in_range_rows]: an item whose date does not parse is filtered out
    before [format] could throw on it. *)
Lemma formattedMonthlyData_range f t l :
  formattedMonthlyData (Some (mkDateRange (Some f) (Some t))) l = Resolved (in_range_rows f t l).
Proof.
  induction l as [|item l IH]; [done|].
  rewrite formattedMonthlyData_cons, IH. unfold in_range_rows, parse_item. simpl.
  destruct (parseISO (mi_date item)) as [d|]; [|done].
  unfold isWithinInterval. destruct (_ && _); done.
Qed.

Lemma table_row_cycle categoryData i r :
  categoryData <> [] ->
  exists c, categoryData !! (i mod length categoryData) = Some c /\
    table_row categoryData i r =
      Resolved (mkTableRow (date r) (revenue r) (users r) (category c) (sales c) (profit c)).
Proof.
  intros Hne. assert (Hlen : length categoryData <> 0) by (destruct categoryData; done).
  destruct (lookup_lt_is_Some_2 categoryData (i mod length categoryData)) as [c Hc];
    [apply Nat.mod_upper_bound; done|].
  exists c. split; [done|]. unfold table_row, js_mod.
  rewrite (proj2 (Nat.eqb_neq _ _) Hlen). simpl. rewrite Hc. done.
Qed.

(** C14. With both ends of the date range set (as in the initial state)
    and a non-empty category fixture, a render never throws: the chart
    gets exactly the items whose date parses and lies in the range, in
    order, and the i-th table row is the i-th chart row joined with the
    category at [i mod] the number of categories. *)
Theorem page_renders_with_range f t monthlyData categoryData :
  categoryData <> [] ->
  exists table,
    render (Some (mkDateRange (Some f) (Some t))) monthlyData categoryData =
      Resolved (in_range_rows f t monthlyData, table) /\
    length table = length (in_range_rows f t monthlyData) /\
    forall i r, in_range_rows f t monthlyData !! i = Some r ->
      exists c, categoryData !! (i mod length categoryData) = Some c /\
        table !! i = Some (mkTableRow (date r) (revenue r) (users r)
                                      (category c) (sales c) (profit c)).
Proof.
  intros Hne. unfold render. rewrite formattedMonthlyData_range. simpl.
  destruct (promise_mapM_imap (table_row categoryData) (in_range_rows f t monthlyData))
    as (out & Hout & Hlen & Hat).
  { intros i x _. destruct (table_row_cycle categoryData i x Hne) as (c & _ & Hc). eauto. }
  unfold tableData. rewrite Hout. exists out. split_and!; [done|done|].
  intros i r Hr. destruct (table_row_cycle categoryData i r Hne) as (c & Hc & Hrow).
  exists c. split; [done|]. eapply Hat; done.
Qed.

(** C15. When an end of the date range is unset, no item is filtered
    out, and the page throws [format]'s [RangeError] exactly when some
    item of the fixture has a date that does not parse. *)
Theorem unset_range_throws_iff_invalid_date range monthlyData :
  (forall f t, range <> Some (mkDateRange (Some f) (Some t))) ->
  formattedMonthlyData range monthlyData = Rejected (RangeError "Invalid time value") <->
  Exists (fun item => parseISO (mi_date item) = None) monthlyData.
Proof.
  intros Hr. assert (Hall : forall item, in_range range item = true).
  { intros item. destruct range as [[[f|] [t|]]|]; try done. exfalso. eapply Hr. done. }
  unfold formattedMonthlyData.
  rewrite filter_Forall_id by (apply Forall_forall; intros; apply Hall).
  rewrite promise_mapM_rejected, Exists_map.
  - unfold format_item, parse_item. simpl.
    apply Exists_iff_pointwise. intros item.
    destruct (parseISO (mi_date item)); simpl; done.
  - intros item. unfold format_item. destruct (p_date item); simpl; eauto.
Qed.

(** C16. With an empty category fixture, a render that has a row to
    show throws a [TypeError]: [index % 0] is [NaN] and
    [categoryData[NaN].category] reads a property of [undefined]. *)
Theorem empty_category_fixture_crashes range monthlyData rows :
  formattedMonthlyData range monthlyData = Resolved rows -> rows <> [] ->
  render range monthlyData [] =
    Rejected (TypeError "Cannot read properties of undefined (reading 'category')").
Proof. intros Hf Hne. unfold render. rewrite Hf. simpl. destruct rows; done. Qed.

End Page.

End DashboardPage.

(** ** Witnesses *)

Import DashboardPage.
Local Open Scope Z_scope.

Lemma page_renders_with_range_witness :
  exists table,
    render (fun x : Z => x) demo_parseISO demo_format
      (Some (mkDateRange (Some 1704067200000) (Some 1706745600000)))
      [mkMonthlyItem "2024-01-15" 4000 120; mkMonthlyItem "2024-02-15" 5000 150;
       mkMonthlyItem "not a date" 0 0]
      [mkCategoryItem "Electronics" 900 300] =
      Resolved (in_range_rows (fun x : Z => x) demo_parseISO demo_format
                  1704067200000 1706745600000
                  [mkMonthlyItem "2024-01-15" 4000 120; mkMonthlyItem "2024-02-15" 5000 150;
                   mkMonthlyItem "not a date" 0 0], table) /\
    length table = 1%nat /\
    table !! 0%nat = Some (mkTableRow "2024-01-15" 4000 120 "Electronics" 900 300).
Proof.
  destruct (page_renders_with_range (fun x : Z => x) demo_parseISO demo_format
              1704067200000 1706745600000
              [mkMonthlyItem "2024-01-15" 4000 120; mkMonthlyItem "2024-02-15" 5000 150;
               mkMonthlyItem "not a date" 0 0]
              [mkCategoryItem "Electronics" 900 300] ltac:(done))
    as (table & Hr & Hlen & Hat).
  exists table. split; [exact Hr|]. split; [exact Hlen|].
  destruct (Hat 0%nat (mkRow "2024-01-15" 4000 120) ltac:(vm_compute; reflexivity))
    as (c & Hc & Ht).
  vm_compute in Hc. injection Hc as <-. exact Ht.
Defined.

Lemma unset_range_throws_iff_invalid_date_witness :
  formattedMonthlyData (fun x : Z => x) demo_parseISO demo_format None
    [mkMonthlyItem "2024-01-15" 4000 120; mkMonthlyItem "not a date" 0 0] =
    Rejected (RangeError "Invalid time value").
Proof.
  apply (unset_range_throws_iff_invalid_date (fun x : Z => x) demo_parseISO demo_format None
           [mkMonthlyItem "2024-01-15" 4000 120; mkMonthlyItem "not a date" 0 0]).
  - intros f t. discriminate.
  - apply Exists_cons. right. apply Exists_cons. left. vm_compute. reflexivity.
Defined.

Lemma empty_category_fixture_crashes_witness :
  render (fun x : Z => x) demo_parseISO demo_format None
    [mkMonthlyItem "2024-01-15" 4000 120] [] =
    Rejected (TypeError "Cannot read properties of undefined (reading 'category')").
Proof.
  apply (empty_category_fixture_crashes (fun x : Z => x) demo_parseISO demo_format None
           [mkMonthlyItem "2024-01-15" 4000 120] [mkRow "2024-01-15" 4000 120]).
  - vm_compute. reflexivity.
  - discriminate.
Defined.
