(* ===== verification/Columns.v ===== *)
(** * Columns: the data table columns of [src/components/data-table/columns.tsx]

    [columns] configures the analytics table of the dashboard: a
    selection column of checkboxes, then one column per field of
    [Analytics], the rows [tableData] builds ([Dashboard.v], at numbers).
    A column reads its cell with [row.getValue(accessorKey)]; the money
    columns show [parseFloat] of it through
    [Intl.NumberFormat("en-US", { style: "currency", currency: "USD" })],
    the users column through [Intl.NumberFormat("en-US")], and the date
    column sorts with TanStack's ["text"] sorting function, which compares
    the lower-cased strings.

    @tanstack/react-table ([getValue], the ["text"] sorting function) and
    [Intl.NumberFormat] are libraries the file calls; they are written out
    here as those libraries define them, on the values the table holds:
    JavaScript numbers that are integers (the fixture's amounts), kept as
    [Z].  The [DataTableColumnHeader] and [Checkbox] components are not in
    the repository: a header or cell is the data handed to them. *)

From Stdlib Require Import DecimalString DecimalN DecimalZ.
From S2P Require Import Prelude Dashboard.
Import DashboardPage.

Module Columns.

(** [type Analytics = { date; revenue; users; category; sales; profit }]:
    the table rows, every amount a number. *)
Definition Analytics : Type := @TableRow Z Z.

(** A value a cell can hold. *)
Inductive CellValue := VString (s : string) | VNumber (n : Z).

(** [row.getValue(columnId)] of an accessor column: the field named by
    the key, [undefined] for any other key. *)
Definition getValue (row : Analytics) (key : string) : option CellValue :=
  if String.eqb key "date" then Some (VString (t_date row))
  else if String.eqb key "revenue" then Some (VNumber (t_revenue row))
  else if String.eqb key "users" then Some (VNumber (t_users row))
  else if String.eqb key "category" then Some (VString (t_category row))
  else if String.eqb key "sales" then Some (VNumber (t_sales row))
  else if String.eqb key "profit" then Some (VNumber (t_profit row))
  else None.

(** A JavaScript number, as far as the cells use it. *)
Inductive JsNumber := JsInt (n : Z) | JsNaN.

(** [parseFloat(v)]: a number reads as itself; [undefined] is [NaN].
    The money columns only read number fields, so no string reaches it
    ([columns_read_defined_values]); a string is mapped to [NaN]. *)
Definition parseFloat (v : option CellValue) : JsNumber :=
  match v with
  | Some (VNumber n) => JsInt n
  | _ => JsNaN
  end.

(** ** [Intl.NumberFormat("en-US")] on integers *)

(** The decimal digits of a natural number, most significant first,
    without leading zeros. *)
Definition decimal_digits (n : N) : list ascii :=
  list_ascii_of_string (NilEmpty.string_of_uint (N.to_uint n)).

(** Grouping separators on the reversed digits: a comma before every
    third digit counted from the right, when one follows. *)
Fixpoint group_rev (k : nat) (l : list ascii) : list ascii :=
  match l with
  | [] => []
  | c :: rest =>
      match k with
      | O => "," :: c :: group_rev 2 rest
      | S k' => c :: group_rev k' rest
      end
  end%char.

Definition format_grouped (n : N) : string :=
  string_of_list_ascii (rev (group_rev 3 (rev (decimal_digits n)))).

Definition minus_sign (n : Z) : string := if (n <? 0)%Z then "-" else "".

(** [new Intl.NumberFormat("en-US").format(x)]. *)
Definition format_number (x : JsNumber) : string :=
  match x with
  | JsNaN => "NaN"
  | JsInt n => minus_sign n +:+ format_grouped (Z.abs_N n)
  end.

(** [new Intl.NumberFormat("en-US", { style: "currency", currency: "USD" })
    .format(x)]: two fraction digits, the sign before the symbol. *)
Definition format_usd (x : JsNumber) : string :=
  match x with
  | JsNaN => "$NaN"
  | JsInt n => minus_sign n +:+ "$" +:+ format_grouped (Z.abs_N n) +:+ ".00"
  end.

(** ** Headers and cells *)

(** What a header hands to [Checkbox] or [DataTableColumnHeader]. *)
Inductive HeaderView :=
  | SelectAllHeader (checked : bool)
  | TitleHeader (title : string).

(** What a cell renders: a checkbox, or a [div] with its class and text. *)
Inductive CellView :=
  | CheckboxCell (checked : bool)
  | TextCell (cls : string) (text : string).

Record ColumnDef := mkColumnDef {
  id : option string;
  accessorKey : option string;
  (** the header, given [table.getIsAllPageRowsSelected()] *)
  header : bool -> HeaderView;
  (** the cell, given the row and [row.getIsSelected()] *)
  cell : Analytics -> bool -> CellView;
  enableSorting : bool;
  enableHiding : bool;
  sortingFn : option string;
  size : nat
}.

(** TanStack's column id: [id], else [accessorKey]. *)
Definition column_id (c : ColumnDef) : option string :=
  match id c with Some i => Some i | None => accessorKey c end.

Definition money_class : string := "text-right font-medium w-[80px]".

(** The money cell of [revenue], [sales] and [profit]. *)
Definition money_cell (key : string) (row : Analytics) (_ : bool) : CellView :=
  TextCell money_class (format_usd (parseFloat (getValue row key))).

(** The text of [row.getValue(key)] as React renders it. *)
Definition value_text (v : option CellValue) : string :=
  match v with
  | Some (VString s) => s
  | Some (VNumber n) => NilEmpty.string_of_int (Z.to_int n)
  | None => EmptyString
  end.

Definition select_column : ColumnDef :=
  mkColumnDef (Some "select") None SelectAllHeader (fun _ selected => CheckboxCell selected)
    false false None 40.

Definition date_column : ColumnDef :=
  mkColumnDef None (Some "date") (fun _ => TitleHeader "Date")
    (fun row _ => TextCell "w-[100px]" (value_text (getValue row "date")))
    true true (Some "text") 100.

Definition revenue_column : ColumnDef :=
  mkColumnDef None (Some "revenue") (fun _ => TitleHeader "Revenue")
    (money_cell "revenue") true true None 80.

Definition users_column : ColumnDef :=
  mkColumnDef None (Some "users") (fun _ => TitleHeader "Users")
    (fun row _ => TextCell money_class (format_number (match getValue row "users" with
                                                       | Some (VNumber n) => JsInt n
                                                       | _ => JsNaN
                                                       end)))
    true true None 80.

Definition category_column : ColumnDef :=
  mkColumnDef None (Some "category") (fun _ => TitleHeader "Category")
    (fun row _ => TextCell "w-[80px]" (value_text (getValue row "category")))
    true true None 80.

Definition sales_column : ColumnDef :=
  mkColumnDef None (Some "sales") (fun _ => TitleHeader "Sales")
    (money_cell "sales") true true None 80.

Definition profit_column : ColumnDef :=
  mkColumnDef None (Some "profit") (fun _ => TitleHeader "Profit")
    (money_cell "profit") true true None 80.

Definition columns : list ColumnDef :=
  [select_column; date_column; revenue_column; users_column;
   category_column; sales_column; profit_column].

(** ** Sorting the date column *)

(** [String.prototype.toLowerCase] on ASCII. *)
Definition ascii_to_lower (c : ascii) : ascii :=
  if is_ascii_upper c then ascii_of_nat (nat_of_ascii c + 32) else c.

Fixpoint str_to_lower (s : string) : string :=
  match s with
  | EmptyString => EmptyString
  | String c s' => String (ascii_to_lower c) (str_to_lower s')
  end.

(** TanStack's [sortingFns.text]: [compareBasic] of the lower-cased
    [toString] of both values ([toString] of a number is its decimal
    text, of anything but a string or a number the empty string). *)
Definition text_sorting_fn (rowA rowB : Analytics) (columnId : string) : comparison :=
  String.compare (str_to_lower (value_text (getValue rowA columnId)))
                 (str_to_lower (value_text (getValue rowB columnId))).

(** TanStack's [column.getSortingFn()] for a built-in function named by
    [sortingFn]; only ["text"] is named in the table. *)
Definition builtin_sorting_fn (name : string)
    : option (Analytics -> Analytics -> string -> comparison) :=
  if String.eqb name "text" then Some text_sorting_fn else None.

(** How the table compares two rows when the user sorts by the column
    [c]: the sorting function it names, applied under the column's id.
    [None] when the column cannot be sorted or names no built-in
    function (TanStack's automatic choice is not modelled). *)
Definition column_compare (c : ColumnDef) (rowA rowB : Analytics) : option comparison :=
  if enableSorting c then
    match sortingFn c ≫= builtin_sorting_fn, column_id c with
    | Some f, Some cid => Some (f rowA rowB cid)
    | _, _ => None
    end
  else None.

(** date-fns' [format(date, 'yyyy-MM-dd')] on the calendar fields of the
    date: [yyyy] pads the year to four digits and prints a longer year
    in full, [MM] and [dd] pad to two. *)
Definition digit_char (d : N) : ascii := ascii_of_N (48 + d).

Fixpoint pad (w : nat) (n : N) : string :=
  match w with
  | O => EmptyString
  | S w' => pad w' (n / 10) +:+ String (digit_char (n mod 10)) EmptyString
  end.

Definition format_yyyy (y : N) : string :=
  if (y <? 10000)%N then pad 4 y else NilEmpty.string_of_uint (N.to_uint y).

Definition format_ymd (y m d : N) : string :=
  format_yyyy y +:+ "-" +:+ pad 2 m +:+ "-" +:+ pad 2 d.

(** Chronological order of calendar dates. *)
Definition chrono_compare (a b : N * N * N) : comparison :=
  let '(y1, m1, d1) := a in
  let '(y2, m2, d2) := b in
  match N.compare y1 y2 with
  | Eq => match N.compare m1 m2 with Eq => N.compare d1 d2 | c => c end
  | c => c
  end.

(** Calendar dates whose [yyyy-MM-dd] text has a four-digit year. *)
Definition in_sortable_range (y m d : N) : bool :=
  (y <? 10000)%N && (1 <=? m)%N && (m <=? 12)%N && (1 <=? d)%N && (d <=? 31)%N.

(** A table row dated [y-m-d], its amounts zero. *)
Definition row_dated (y m d : N) : Analytics :=
  mkTableRow (format_ymd y m d) 0%Z 0%Z EmptyString 0%Z 0%Z.

(** ** Reading a formatted amount back *)

Definition parse_grouped (s : string) : option N :=
  N.of_uint <$> NilEmpty.uint_of_string
                  (string_of_list_ascii (filter (fun c => c <> ","%char) (list_ascii_of_string s))).

(** The amount a currency text such as ["-$1,234.00"] shows. *)
Definition parse_usd (s : string) : option Z :=
  let '(neg, rest) := match s with
                      | String c r => if Ascii.eqb c "-" then (true, r) else (false, s)
                      | EmptyString => (false, s)
                      end in
  body ← str_strip_prefix "$" rest;
  match str_split "." body with
  | [int; frac] =>
      if String.eqb frac "00"
      then (fun n => if neg then Z.opp (Z.of_N n) else Z.of_N n) <$> parse_grouped int
      else None
  | _ => None
  end.

End Columns.

(** ** Facts *)

Section ColumnFacts.
Import Columns.

(** *** Formatted amounts read back *)

Lemma uint_chars u :
  Forall (fun c => c <> ","%char /\ c <> "."%char)
         (list_ascii_of_string (NilEmpty.string_of_uint u)).
Proof. induction u; simpl; repeat constructor; done. Qed.

Lemma group_rev_Forall (Q : ascii -> Prop) k l :
  Q ","%char -> Forall Q l -> Forall Q (group_rev k l).
Proof.
  intros Hc Hl. revert k. induction Hl as [|x l Hx Hl IH]; intros [|k]; simpl;
    repeat constructor; done.
Qed.

Lemma filter_group_rev k l :
  Forall (fun c => c <> ","%char) l ->
  filter (fun c => c <> ","%char) (group_rev k l) = l.
Proof.
  intros Hl. revert k. induction Hl as [|x l Hx Hl IH]; intros [|k]; simpl; [done|done| |].
  - rewrite !filter_cons. repeat case_decide; try done. rewrite IH. done.
  - rewrite filter_cons. case_decide; [|done]. rewrite IH. done.
Qed.

Lemma filter_rev {A} (P : A -> Prop) `{!forall x, Decision (P x)} l :
  filter P (rev l) = rev (filter P l).
Proof.
  induction l as [|x l IH]; [done|]. simpl. rewrite filter_app, IH.
  destruct (decide (P x)).
  - rewrite !filter_cons_True by done. done.
  - rewrite !filter_cons_False by done. simpl. rewrite app_nil_r. done.
Qed.

Lemma str_excludes_of_list sep l :
  Forall (fun c => c <> sep) l -> str_excludes sep (string_of_list_ascii l) = true.
Proof.
  unfold str_excludes. induction 1 as [|x l Hx Hl IH]; [done|]. simpl.
  rewrite IH, andb_true_r. apply negb_true_iff, Ascii.eqb_neq. done.
Qed.

Lemma format_grouped_chars n :
  Forall (fun c => c <> ","%char /\ c <> "."%char) (decimal_digits n).
Proof. apply uint_chars. Qed.

Lemma format_grouped_no_dot n : str_excludes "." (format_grouped n) = true.
Proof.
  apply str_excludes_of_list. apply Forall_rev, group_rev_Forall; [done|].
  apply Forall_rev. eapply Forall_impl; [apply format_grouped_chars|]. intros ? []; done.
Qed.

(** Removing the grouping separators gives the digits back. *)
Lemma parse_grouped_format n : parse_grouped (format_grouped n) = Some n.
Proof.
  unfold parse_grouped, format_grouped.
  rewrite list_ascii_of_string_of_list_ascii, filter_rev, filter_group_rev, rev_involutive.
  - unfold decimal_digits. rewrite string_of_list_ascii_of_string, NilEmpty.usu.
    simpl. rewrite DecimalN.Unsigned.of_to. done.
  - apply Forall_rev. eapply Forall_impl; [apply format_grouped_chars|]. intros ? []; done.
Qed.

(** The currency text of an integer amount reads back as that amount. *)
Lemma parse_usd_format n : parse_usd (format_usd (JsInt n)) = Some n.
Proof.
  unfold format_usd, parse_usd, minus_sign.
  assert (Hsplit : str_split "." (format_grouped (Z.abs_N n) +:+ ".00") =
                   [format_grouped (Z.abs_N n); "00"])
    by (rewrite (str_split_app _ _ "00") by apply format_grouped_no_dot; done).
  destruct (Z.ltb_spec n 0) as [Hn|Hn]; simpl.
  - rewrite Hsplit. simpl. rewrite parse_grouped_format. simpl.
    rewrite N2Z.inj_abs_N. f_equal. lia.
  - rewrite Hsplit. simpl. rewrite parse_grouped_format. simpl.
    rewrite N2Z.inj_abs_N. f_equal. lia.
Qed.

(** *** Fixed-width digit strings compare as the numbers *)

Lemma digit_char_compare a b :
  (a < 10)%N -> (b < 10)%N -> Ascii.compare (digit_char a) (digit_char b) = N.compare a b.
Proof.
  intros Ha Hb. unfold Ascii.compare, digit_char.
  rewrite !N_ascii_embedding by lia.
  destruct (N.compare_spec a b);
    [apply N.compare_eq_iff|apply N.compare_lt_iff|apply N.compare_gt_iff]; lia.
Qed.

Lemma N_compare_div_mod n1 n2 :
  N.compare n1 n2 =
  match N.compare (n1 / 10) (n2 / 10) with
  | Eq => N.compare (n1 mod 10) (n2 mod 10)
  | c => c
  end.
Proof.
  pose proof (N.div_mod n1 10 ltac:(lia)). pose proof (N.div_mod n2 10 ltac:(lia)).
  pose proof (N.mod_lt n1 10 ltac:(lia)). pose proof (N.mod_lt n2 10 ltac:(lia)).
  generalize dependent (n1 / 10)%N. generalize dependent (n2 / 10)%N.
  generalize dependent (n1 mod 10)%N. generalize dependent (n2 mod 10)%N.
  intros r2 Hr2 r1 Hr1 q2 Hq2 q1 Hq1.
  destruct (N.compare_spec q1 q2); [destruct (N.compare_spec r1 r2)|..];
    [apply N.compare_eq_iff|apply N.compare_lt_iff|apply N.compare_gt_iff
    |apply N.compare_lt_iff|apply N.compare_gt_iff]; lia.
Qed.

Lemma pad_compare w n1 n2 s1 s2 :
  (n1 < 10 ^ N.of_nat w)%N -> (n2 < 10 ^ N.of_nat w)%N ->
  String.compare (pad w n1 +:+ s1) (pad w n2 +:+ s2) =
  match N.compare n1 n2 with Eq => String.compare s1 s2 | c => c end.
Proof.
  revert n1 n2 s1 s2. induction w as [|w IH]; intros n1 n2 s1 s2 H1 H2.
  - simpl in *. assert (n1 = 0%N) as -> by lia. assert (n2 = 0%N) as -> by lia. done.
  - rewrite Nat2N.inj_succ, N.pow_succ_r' in H1, H2. simpl.
    rewrite <- !str_app_assoc. simpl.
    rewrite IH by (apply N.div_lt_upper_bound; lia).
    cbn [String.compare]. rewrite digit_char_compare by (apply N.mod_lt; lia).
    rewrite (N_compare_div_mod n1 n2).
    destruct (N.compare (n1 / 10) (n2 / 10)); [|done|done].
    destruct (N.compare (n1 mod 10) (n2 mod 10)); done.
Qed.

Lemma str_compare_cons c a b :
  String.compare (String c EmptyString +:+ a) (String c EmptyString +:+ b) = String.compare a b.
Proof. simpl. unfold Ascii.compare. rewrite N.compare_refl. done. Qed.

Lemma ascii_to_lower_digit d : (d < 10)%N -> ascii_to_lower (digit_char d) = digit_char d.
Proof.
  intros Hd. unfold ascii_to_lower, is_ascii_upper, nat_of_ascii, digit_char.
  rewrite N_ascii_embedding by lia.
  replace (65 <=? N.to_nat (48 + d)) with false by (symmetry; apply Nat.leb_gt; lia). done.
Qed.

Lemma str_to_lower_app a b : str_to_lower (a +:+ b) = str_to_lower a +:+ str_to_lower b.
Proof. induction a as [|c a IH]; simpl; [done|]. rewrite IH. done. Qed.

Lemma str_to_lower_pad w n : str_to_lower (pad w n) = pad w n.
Proof.
  revert n. induction w as [|w IH]; intros n; [done|]. simpl.
  rewrite str_to_lower_app, IH. simpl. rewrite ascii_to_lower_digit by (apply N.mod_lt; lia).
  done.
Qed.

(** The text of a date in range compares as the date. *)
Lemma format_ymd_compare y1 m1 d1 y2 m2 d2 :
  in_sortable_range y1 m1 d1 = true -> in_sortable_range y2 m2 d2 = true ->
  String.compare (format_ymd y1 m1 d1) (format_ymd y2 m2 d2) =
  chrono_compare (y1, m1, d1) (y2, m2, d2).
Proof.
  unfold in_sortable_range. intros H1 H2. repeat rewrite andb_true_iff in H1, H2.
  rewrite !N.ltb_lt, !N.leb_le in H1, H2.
  unfold format_ymd, format_yyyy, chrono_compare.
  replace (y1 <? 10000)%N with true by (symmetry; apply N.ltb_lt; lia).
  replace (y2 <? 10000)%N with true by (symmetry; apply N.ltb_lt; lia).
  rewrite pad_compare by (simpl; lia). destruct (N.compare y1 y2); [|done|done].
  rewrite str_compare_cons.
  rewrite pad_compare by (simpl; lia). destruct (N.compare m1 m2); [|done|done].
  rewrite str_compare_cons.
  rewrite <- (str_app_nil_r (pad 2 d1)), <- (str_app_nil_r (pad 2 d2)).
  rewrite pad_compare by (simpl; lia). destruct (N.compare d1 d2); done.
Qed.

Lemma in_sortable_range_year y m d : in_sortable_range y m d = true -> (y < 10000)%N.
Proof. unfold in_sortable_range. destruct (y <? 10000)%N eqn:E; [|done]. intros _. apply N.ltb_lt, E. Qed.

Lemma str_to_lower_format_ymd y m d :
  (y < 10000)%N -> str_to_lower (format_ymd y m d) = format_ymd y m d.
Proof.
  intros Hy. unfold format_ymd, format_yyyy.
  replace (y <? 10000)%N with true by (symmetry; apply N.ltb_lt; lia).
  rewrite !str_to_lower_app, !str_to_lower_pad. done.
Qed.

(** C24. Every money cell ([revenue], [sales], [profit]) shows the row's
    amount exactly: its text, ["$1,234.00"] or ["-$1,234.00"], reads back
    as the number the row holds. *)
Theorem money_cells_show_amount row selected :
  Forall (fun '(c, amount) =>
            exists text, cell c row selected = TextCell money_class text /\
                         parse_usd text = Some amount)
         [(revenue_column, t_revenue row); (sales_column, t_sales row);
          (profit_column, t_profit row)].
Proof.
  repeat (constructor; [eexists; split; [reflexivity|apply parse_usd_format]|]).
  constructor.
Qed.

(** C25. Sorting the table by its date column orders the rows by date:
    the column sorts with the ["text"] sorting function under its id
    ["date"], and for dates with a four-digit year the comparison of the
    [yyyy-MM-dd] texts is the chronological comparison. *)
Theorem date_text_order_is_chronological rowA rowB y1 m1 d1 y2 m2 d2 :
  t_date rowA = format_ymd y1 m1 d1 -> t_date rowB = format_ymd y2 m2 d2 ->
  in_sortable_range y1 m1 d1 = true -> in_sortable_range y2 m2 d2 = true ->
  column_compare date_column rowA rowB = Some (chrono_compare (y1, m1, d1) (y2, m2, d2)).
Proof.
  intros HA HB H1 H2. unfold column_compare. simpl. f_equal.
  unfold text_sorting_fn. simpl. rewrite HA, HB.
  rewrite !str_to_lower_format_ymd by (eapply in_sortable_range_year; done). apply format_ymd_compare; done.
Qed.

(** Membership in a range of years, decided by evaluation. *)
Lemma N_range_forallb (P : N -> bool) lo n :
  forallb P (map N.of_nat (seq (N.to_nat lo) (N.to_nat n))) = true ->
  forall y, (lo <= y < lo + n)%N -> P y = true.
Proof.
  intros Hall y Hy. rewrite forallb_forall in Hall. apply Hall, in_map_iff.
  exists (N.to_nat y). split; [apply N2Nat.id|]. apply in_seq. lia.
Qed.

(** Years 10000 to 19999 print as five digits starting with [1]. *)
Lemma format_yyyy_five_digits y :
  (10000 <= y < 20000)%N -> exists r, format_yyyy y = String "1" r.
Proof.
  intros Hy.
  pose proof (N_range_forallb
    (fun y => match format_yyyy y with String c _ => Ascii.eqb c "1" | EmptyString => false end)
    10000 10000 ltac:(vm_compute; reflexivity) y ltac:(lia)) as H.
  cbv beta in H. destruct (format_yyyy y) as [|c r]; [discriminate|]. apply Ascii.eqb_eq in H. subst. eauto.
Qed.

(** Years 2000 to 9999 print as four digits, the first above [1]. *)
Lemma format_yyyy_four_digits y :
  (2000 <= y < 10000)%N ->
  exists c r, format_yyyy y = String c r /\ Ascii.compare "1" (ascii_to_lower c) = Lt.
Proof.
  intros Hy.
  pose proof (N_range_forallb
    (fun y => match format_yyyy y with
              | String c _ => match Ascii.compare "1" (ascii_to_lower c) with Lt => true | _ => false end
              | EmptyString => false end)
    2000 8000 ltac:(vm_compute; reflexivity) y ltac:(lia)) as H.
  cbv beta in H. destruct (format_yyyy y) as [|c r]; [discriminate|]. exists c, r. split; [done|].
  destruct (Ascii.compare _ _); done.
Qed.

(** C26. The order is chronological only while years have four digits:
    a row dated in a year from 10000 to 19999 sorts before a row dated in
    a year from 2000 to 9999, though it is later. *)
Theorem year_10000_sorts_first rowA rowB y1 m1 d1 y2 m2 d2 :
  t_date rowA = format_ymd y1 m1 d1 -> t_date rowB = format_ymd y2 m2 d2 ->
  (10000 <= y1 < 20000)%N -> (2000 <= y2 < 10000)%N ->
  column_compare date_column rowA rowB = Some Lt
  /\ chrono_compare (y1, m1, d1) (y2, m2, d2) = Gt.
Proof.
  intros HA HB H1 H2. split.
  - unfold column_compare. simpl. f_equal. unfold text_sorting_fn. simpl. rewrite HA, HB.
    destruct (format_yyyy_five_digits y1 H1) as [r1 E1].
    destruct (format_yyyy_four_digits y2 H2) as (c2 & r2 & E2 & Hc).
    unfold format_ymd. rewrite E1, E2. cbn [String.append str_to_lower String.compare].
    change (ascii_to_lower "1") with "1"%char. rewrite Hc. done.
  - simpl. replace (N.compare y1 y2) with Gt by (symmetry; apply N.compare_gt_iff; lia). done.
Qed.

End ColumnFacts.

(** ** Witnesses *)

Import Columns.

Lemma date_text_order_is_chronological_witness :
  column_compare date_column (row_dated 2023 12 31) (row_dated 2024 1 15) =
  Some (chrono_compare (2023, 12, 31)%N (2024, 1, 15)%N).
Proof.
  exact (date_text_order_is_chronological (row_dated 2023 12 31) (row_dated 2024 1 15)
           2023 12 31 2024 1 15 eq_refl eq_refl eq_refl eq_refl).
Defined.

Lemma year_10000_sorts_first_witness :
  column_compare date_column (row_dated 10000 1 1) (row_dated 9999 12 31) = Some Lt
  /\ chrono_compare (10000, 1, 1)%N (9999, 12, 31)%N = Gt.
Proof.
  refine (year_10000_sorts_first (row_dated 10000 1 1) (row_dated 9999 12 31)
            10000 1 1 9999 12 31 eq_refl eq_refl _ _); split; apply N.leb_le || apply N.ltb_lt; reflexivity.
Defined.
