(* ===== verification/DashboardView.v ===== *)
(** * DashboardView: what [src/app/dashboard/page.tsx] hands to its charts and table

    The page renders three summary cards with fixed texts, a line chart
    of [formattedMonthlyData] (x axis [date], lines [revenue] and
    [users]), a bar chart of [chartData.categoryData] (x axis [category],
    bars [sales] and [profit]) and the [DataTable] of [tableData] with the
    [columns] of [Columns.v].  Recharts reads a series as [row[dataKey]]
    and the table a cell as [row.getValue(accessorKey)]: the class
    [HasFields] is that field access, with one instance per kind of row,
    and [page_view] is the page's render at JSON numbers ([Number] is the
    identity on a number).  The file holds the model only; the properties
    of the data it draws are those of [Dashboard.v] and [Columns.v]. *)

From S2P Require Import Prelude Dashboard Columns.
Import DashboardPage Columns.

Module DashboardView.

(** Reading a named field of a row, [undefined] being [None]. *)
Class HasFields (R : Type) := field : R -> string -> option CellValue.

#[export] Instance row_fields : HasFields (@Row Z) := fun r key =>
  if String.eqb key "date" then Some (VString (date r))
  else if String.eqb key "revenue" then Some (VNumber (revenue r))
  else if String.eqb key "users" then Some (VNumber (users r))
  else None.

#[export] Instance category_fields : HasFields (@CategoryItem Z) := fun c key =>
  if String.eqb key "category" then Some (VString (category c))
  else if String.eqb key "sales" then Some (VNumber (sales c))
  else if String.eqb key "profit" then Some (VNumber (profit c))
  else None.

#[export] Instance analytics_fields : HasFields Analytics := getValue.

(** A chart: its [data], the [XAxis dataKey] and the series' [dataKey]s. *)
Record Chart (R : Type) := mkChart {
  chart_data : list R;
  xKey : string;
  dataKeys : list string
}.
Arguments mkChart {R}.
Arguments chart_data {R}.
Arguments xKey {R}.
Arguments dataKeys {R}.

Record PageView := mkPageView {
  cards : list (string * string);
  line_chart : Chart (@Row Z);
  bar_chart : Chart (@CategoryItem Z);
  table_columns : list ColumnDef;
  table_data : list Analytics
}.

(** The three [Card]s: title and content. *)
Definition summary_cards : list (string * string) :=
  [("Total Revenue", "$45,231.89"); ("Active Users", "+2350");
   ("Active Sessions", "+12,234")].

(** [Page]'s render. *)
Definition page_view (parseISO : string -> option Z) (format_yyyy_MM_dd : Z -> string)
    (range : option DateRange) (monthlyData : list (@MonthlyItem Z))
    (categoryData : list (@CategoryItem Z)) : Promise PageView :=
  '(rows, table) ← render (fun n : Z => n) parseISO format_yyyy_MM_dd range monthlyData categoryData;
  mret (mkPageView summary_cards
          (mkChart rows "date" ["revenue"; "users"])
          (mkChart categoryData "category" ["sales"; "profit"])
          columns table).

End DashboardView.
